(** * SWAN Marking Assistant: the analysis dispatcher of [swan_2.py]

    A shallow embedding of the heuristic dispatcher [run_swan_analysis], its
    extractors and structural predicates, of the page and the downloadable
    text report of [swan_2.py], and of the Word-only script [swan_app.py],
    followed by the properties the specification states about them and by
    further properties read off the code.

    Python [str] values are modelled as [string]: a sequence of characters,
    each an 8-bit code point (the Latin-1 range of Unicode), and [len] is
    [String.length].  [str.lower], [str.strip] and the regular expression
    classes [\w] / [\b] are given their Python meaning on that range. *)

From Stdlib Require Import Bool Arith Lia List Ascii String.
From Stdlib Require Import Numbers.DecimalString.
From Stdlib Require Numbers.DecimalNat.
From Stdlib Require Sorting.Permutation.
Import ListNotations.
Open Scope string_scope.
Open Scope list_scope.
Open Scope nat_scope.

Set Implicit Arguments.

(** ** Python string primitives *)

Module Py.

Definition code (c : ascii) : nat := nat_of_ascii c.

Definition between (lo hi : nat) (c : ascii) : bool :=
  (lo <=? code c) && (code c <=? hi).

(** [str.isspace] on one character. *)
Definition isspace (c : ascii) : bool :=
  between 9 13 c || between 28 32 c || (code c =? 133) || (code c =? 160).

(** [str.isalnum] on one character: letters, decimal digits and the other
    numeric characters of the range. *)
Definition isalnum (c : ascii) : bool :=
  between 48 57 c || between 65 90 c || between 97 122 c
  || (code c =? 170) || between 178 179 c || (code c =? 181)
  || between 185 186 c || between 188 190 c
  || between 192 214 c || between 216 246 c || between 248 255 c.

(** The character mapping of [str.lower]. *)
Definition lower_char (c : ascii) : ascii :=
  if between 65 90 c || between 192 214 c || between 216 222 c
  then ascii_of_nat (code c + 32)
  else c.

Fixpoint lower (s : string) : string :=
  match s with
  | EmptyString => EmptyString
  | String c s' => String (lower_char c) (lower s')
  end.

Fixpoint lstrip (s : string) : string :=
  match s with
  | EmptyString => EmptyString
  | String c s' => if isspace c then lstrip s' else s
  end.

Fixpoint rstrip (s : string) : string :=
  match s with
  | EmptyString => EmptyString
  | String c s' =>
      match rstrip s' with
      | EmptyString => if isspace c then EmptyString else String c EmptyString
      | r => String c r
      end
  end.

Definition strip (s : string) : string := rstrip (lstrip s).

(** Truthiness of a string: [if s]. *)
Definition truthy (s : string) : bool :=
  match s with EmptyString => false | _ => true end.

(** [needle in hay]. *)
Fixpoint contains (needle hay : string) : bool :=
  String.prefix needle hay
  || match hay with
     | EmptyString => false
     | String _ hay' => contains needle hay'
     end.

(** [s.startswith(p)]. *)
Definition startswith (s p : string) : bool := String.prefix p s.

(** [sep.join(parts)]. *)
Definition join (sep : string) (parts : list string) : string :=
  String.concat sep parts.

(** [c * n] for a one-character string. *)
Fixpoint repeat_char (c : ascii) (n : nat) : string :=
  match n with
  | O => EmptyString
  | S n' => String c (repeat_char c n')
  end.

(** [str(n)] / [f"{n}"] for a non-negative integer. *)
Definition str_of_nat (n : nat) : string :=
  NilEmpty.string_of_uint (Nat.to_uint n).

End Py.

(** ** The regular expression [\b[a-zA-Z]{3,}\b] and [re.findall] *)

Module Re.

(** [\w]: alphanumeric or underscore. *)
Definition is_word (c : ascii) : bool :=
  Py.isalnum c || (Py.code c =? 95).

(** The class [[a-zA-Z]]. *)
Definition in_class (c : ascii) : bool :=
  Py.between 97 122 c || Py.between 65 90 c.

Definition word_at (c : option ascii) : bool :=
  match c with Some x => is_word x | None => false end.

(** [\b] between the character before the position and the one after it
    (either may be missing at the ends of the text). *)
Definition boundary (prev next : option ascii) : bool :=
  xorb (word_at prev) (word_at next).

Definition head (s : string) : option ascii :=
  match s with EmptyString => None | String c _ => Some c end.

(** The longest prefix of class characters, with the rest of the text. *)
Fixpoint span_class (s : string) : string * string :=
  match s with
  | EmptyString => (EmptyString, EmptyString)
  | String c s' =>
      if in_class c
      then let (run, rest) := span_class s' in (String c run, rest)
      else (EmptyString, s)
  end.

Fixpoint last_char (prev : option ascii) (s : string) : option ascii :=
  match s with
  | EmptyString => prev
  | String c s' => last_char (Some c) s'
  end.

(** The greedy quantifier [{3,}] followed by [\b], with backtracking: of the
    [run] of class characters at the position, first try to take [k] of
    them, then give back one character at a time until the closing [\b]
    holds after the taken ones or fewer than three remain. *)
Fixpoint backtrack (run rest : string) (k : nat) : option string :=
  let cand := String.substring 0 k run in
  let after := (String.substring k (String.length run - k) run ++ rest)%string in
  if (3 <=? k) && boundary (last_char None cand) (head after)
  then Some cand
  else match k with
       | O => None
       | S k' => backtrack run rest k'
       end.

(** One attempt of the whole pattern at the current position. *)
Definition match_here (prev : option ascii) (s : string) : option string :=
  if boundary prev (head s)
  then let (run, rest) := span_class s in
       backtrack run rest (String.length run)
  else None.

(** [re.findall]: scan left to right; after a match the scan resumes at its
    end.  [skip] counts the characters of the current match still to be
    stepped over. *)
Fixpoint scan (skip : nat) (prev : option ascii) (s : string) : list string :=
  match s with
  | EmptyString => []
  | String c s' =>
      match skip with
      | S k => scan k (Some c) s'
      | O =>
          match match_here prev s with
          | Some m => m :: scan (String.length m - 1) (Some c) s'
          | None => scan 0 (Some c) s'
          end
      end
  end.

Definition findall (text : string) : list string := scan 0 None text.

End Re.

(** ** Outcomes: a value or an uncaught Python exception *)

Inductive exn : Type :=
| ParseError   (* raised by a document library on a file it cannot read *)
| IndexError.  (* list index out of range *)

Inductive result (A : Type) : Type :=
| Ok (a : A)
| Raise (e : exn).
Arguments Ok {A} a.
Arguments Raise {A} e.

Definition bind {A B : Type} (r : result A) (k : A -> result B) : result B :=
  match r with
  | Ok a => k a
  | Raise e => Raise e
  end.

Notation "x <- r ;; k" := (bind r (fun x => k))
  (at level 61, r at next level, right associativity).
Notation "' pat <- r ;; k" := (bind r (fun x => match x with pat => k end))
  (at level 61, pat pattern, r at next level, right associativity).

(** [xs[-1]]. *)
Fixpoint index_last {A : Type} (xs : list A) : result A :=
  match xs with
  | [] => Raise IndexError
  | [x] => Ok x
  | _ :: xs' => index_last xs'
  end.

(** ** Uploaded documents, as the document libraries present them *)

(** python-docx: a paragraph has its text and, possibly, a named style. *)
Record Style : Type := { style_name : string }.
Record Paragraph : Type := { p_text : string; p_style : option Style }.
Record Docx : Type := { doc_paragraphs : list Paragraph }.

(** pandas: a workbook is its sheets in order; for each sheet [cell_values] is
    [df.astype(str).fillna("").values.flatten().tolist()] of its data frame. *)
Record Sheet : Type := { sheet_name : string; cell_values : list string }.

(** python-pptx: a shape may or may not have a [text] attribute. *)
Record Shape : Type := { shape_text : option string }.
Record Slide : Type := { shapes : list Shape }.

(** The uploaded file handle: what each library makes of it ([None] when the
    library raises on it). *)
Record UploadedFile : Type := {
  as_docx : option Docx;
  as_xlsx : option (list Sheet);
  as_pptx : option (list Slide)
}.

Definition opened {A : Type} (o : option A) : result A :=
  match o with Some a => Ok a | None => Raise ParseError end.

Definition Document (file : UploadedFile) : result Docx := opened (as_docx file).
Definition ExcelFile (file : UploadedFile) : result (list Sheet) := opened (as_xlsx file).
Definition Presentation (file : UploadedFile) : result (list Slide) := opened (as_pptx file).

(** ** Config *)

Definition SHORT_PARAGRAPH_LIMIT : nat := 260.

(** ** Text extraction helpers *)

Definition extract_text_from_docx (file : UploadedFile)
  : result (option Docx * list string) :=
  doc <- Document file ;;
  let paragraphs :=
    map (fun p => Py.strip (p_text p))
        (filter (fun p => Py.truthy (Py.strip (p_text p))) (doc_paragraphs doc)) in
  Ok (Some doc, paragraphs).

(** The loop over [xls.sheet_names], [text_blocks] being the accumulator. *)
Fixpoint xlsx_blocks (sheets : list Sheet) (text_blocks : list string) : list string :=
  match sheets with
  | [] => text_blocks
  | sheet :: more =>
      let text_blocks := text_blocks ++ ["Sheet: " ++ sheet_name sheet]%string in
      let flat_values := cell_values sheet in
      let text_blocks :=
        text_blocks ++ filter (fun v => Py.truthy (Py.strip v)) flat_values in
      xlsx_blocks more text_blocks
  end.

Definition extract_text_from_xlsx (file : UploadedFile)
  : result (option Docx * list string) :=
  xls <- ExcelFile file ;;
  Ok (None, xlsx_blocks xls []).

(** The inner loop over [slide.shapes]. *)
Fixpoint slide_text_of (shp : list Shape) (slide_text : list string) : list string :=
  match shp with
  | [] => slide_text
  | shape :: more =>
      match shape_text shape with
      | Some t =>
          if Py.truthy (Py.strip t)
          then slide_text_of more (slide_text ++ [Py.strip t])
          else slide_text_of more slide_text
      | None => slide_text_of more slide_text
      end
  end.

(** The loop over [enumerate(prs.slides, start=1)], [slide_idx] being the
    running index. *)
Fixpoint pptx_blocks (slides : list Slide) (slide_idx : nat) (text_blocks : list string)
  : list string :=
  match slides with
  | [] => text_blocks
  | slide :: more =>
      let slide_text := slide_text_of (shapes slide) [] in
      let text_blocks :=
        match slide_text with
        | [] => text_blocks
        | _ => (text_blocks ++ ["Slide " ++ Py.str_of_nat slide_idx ++ ":"]%string)
                 ++ slide_text
        end in
      pptx_blocks more (S slide_idx) text_blocks
  end.

Definition extract_text_from_pptx (file : UploadedFile)
  : result (option Docx * list string) :=
  prs <- Presentation file ;;
  Ok (None, pptx_blocks prs 1 []).

(** ** Structural analysis helpers *)

Definition count_headings_docx (doc : option Docx) : nat :=
  match doc with
  | None => 0
  | Some d =>
      List.length
        (filter (fun p => match p_style p with
                          | Some st => Py.startswith (style_name st) "Heading"
                          | None => false
                          end)
                (doc_paragraphs d))
  end.

Definition has_bullets_docx (doc : option Docx) : bool :=
  match doc with
  | None => false
  | Some d =>
      existsb (fun p => Py.contains "List"
                          (match p_style p with
                           | Some st => style_name st
                           | None => ""
                           end))
              (doc_paragraphs d)
  end.

Definition find_short_paragraphs (paragraphs : list string) : list string :=
  filter (fun p => String.length p <? SHORT_PARAGRAPH_LIMIT) paragraphs.

(** [collections.Counter]: a dictionary, kept in insertion order. *)
Fixpoint counter_incr (w : string) (counts : list (string * nat)) : list (string * nat) :=
  match counts with
  | [] => [(w, 1)]
  | (k, c) :: rest =>
      if String.eqb k w then (k, S c) :: rest else (k, c) :: counter_incr w rest
  end.

Definition Counter (words : list string) : list (string * nat) :=
  fold_left (fun counts w => counter_incr w counts) words [].

Definition find_spelling_issues (paragraphs : list string) : list string :=
  let text := Py.lower (Py.join " " paragraphs) in
  let words := Re.findall text in
  let counts := Counter words in
  map fst (filter (fun wc => 3 <=? snd wc) counts).

(** ** SWAN engine *)

Definition Feedback : Type :=
  (list string * list string * list string * list string)%type.

Definition truthy_list {A : Type} (l : list A) : bool :=
  match l with [] => false | _ => true end.

(** The body of [run_swan_analysis] once the extractor has returned. *)
Definition analyse (ext : string) (doc : option Docx) (paragraphs : list string)
  : result Feedback :=
  if negb (truthy_list paragraphs)
  then Ok ([], ["No readable content was found in the file."], [], [])
  else
    let strengths : list string := [] in
    let weaknesses : list string := [] in
    let actions : list string := [] in
    let next_steps : list string := [] in

    let strengths :=
      if String.eqb ext ".docx" then
        let strengths :=
          if 1 <=? count_headings_docx doc
          then strengths ++ ["You have used headings to organise your work."]
          else strengths in
        if has_bullets_docx doc
        then strengths ++ ["Bullet points help make your ideas clear and easy to read."]
        else strengths
      else strengths in

    let strengths :=
      if existsb (String.eqb ext) [".xlsx"; ".pptx"] then
        let strengths :=
          if existsb (fun p => Py.contains "sheet:" (Py.lower p)) paragraphs
          then strengths ++ ["Your work is organised into clear sections or sheets."]
          else strengths in
        if existsb (fun p => Py.contains "slide" (Py.lower p)) paragraphs
        then strengths ++ ["Your slides are clearly separated and labelled."]
        else strengths
      else strengths in

    let short_paras := find_short_paragraphs paragraphs in
    let strengths :=
      if negb (truthy_list short_paras)
      then strengths ++ ["Most of your sections are developed with enough detail."]
      else strengths in

    let '(weaknesses, actions) :=
      if truthy_list short_paras
      then (weaknesses ++ ["Some sections are very short and lack detail."],
            actions ++ ["Action: Choose one short section and add at least one example or explanation."])
      else (weaknesses, actions) in

    last_block <- index_last paragraphs ;;
    let '(weaknesses, actions) :=
      if String.length last_block <? SHORT_PARAGRAPH_LIMIT
      then (weaknesses ++ ["There is no clear conclusion at the end of your work."],
            actions ++ ["Action: Add a short conclusion that summarises your key points and links back to the question or purpose."])
      else (weaknesses, actions) in

    let spelling_issues := find_spelling_issues paragraphs in
    let '(weaknesses, actions) :=
      if truthy_list spelling_issues
      then (weaknesses ++ ["The same word or phrase is repeated many times, which may be a spelling or vocabulary issue."],
            actions ++ ["Action: Review repeated words and check their spelling or replace some with alternatives."])
      else (weaknesses, actions) in

    let next_steps := next_steps ++ ["Read your work aloud to check that it flows logically and makes sense."] in
    let next_steps := next_steps ++ ["Compare your structure to a model answer or exemplar to see how you could improve organisation."] in
    let next_steps := next_steps ++ ["Ask a peer or teacher to highlight one section that could be clearer, then rewrite it."] in

    Ok (strengths, weaknesses, actions, next_steps).

Definition run_swan_analysis (file : UploadedFile) (ext : string) : result Feedback :=
  if String.eqb ext ".docx" then
    '(doc, paragraphs) <- extract_text_from_docx file ;;
    analyse ext doc paragraphs
  else if String.eqb ext ".xlsx" then
    '(doc, paragraphs) <- extract_text_from_xlsx file ;;
    analyse ext doc paragraphs
  else if String.eqb ext ".pptx" then
    '(doc, paragraphs) <- extract_text_from_pptx file ;;
    analyse ext doc paragraphs
  else
    Ok ([], ["Unsupported file type."], [], []).

(** ** The downloadable report *)

Definition nl : string := String (ascii_of_nat 10) EmptyString.

Definition bullet_lines (entries : list string) : list string :=
  map (fun s => "- " ++ s)%string entries.

Definition report_text (name : string)
    (strengths weaknesses actions next_steps : list string) : string :=
  let report_text := ("SWAN Feedback Report: " ++ name ++ nl)%string in
  let report_text := (report_text ++ (Py.repeat_char "="%char 30 ++ nl ++ nl))%string in
  let report_text :=
    (report_text ++ ((("STRENGTHS:" ++ nl) ++ Py.join nl (bullet_lines strengths)) ++ nl ++ nl))%string in
  let report_text :=
    (report_text ++ ((("WEAKNESSES:" ++ nl) ++ Py.join nl (bullet_lines weaknesses)) ++ nl ++ nl))%string in
  let report_text :=
    (report_text ++ ((("ACTIONS:" ++ nl) ++ Py.join nl (bullet_lines actions)) ++ nl ++ nl))%string in
  let report_text :=
    (report_text ++ (("NEXT STEPS:" ++ nl) ++ Py.join nl (bullet_lines next_steps)))%string in
  report_text.

(** ** Vocabulary of the specification *)

(** The three extensions with an extractor. *)
Definition supported (ext : string) : Prop :=
  ext = ".docx" \/ ext = ".xlsx" \/ ext = ".pptx".

(** What step 1 of the dispatcher extracts: [None] when no extractor is
    selected, otherwise the outcome of the selected one. *)
Definition extraction (file : UploadedFile) (ext : string)
  : option (result (option Docx * list string)) :=
  if String.eqb ext ".docx" then Some (extract_text_from_docx file)
  else if String.eqb ext ".xlsx" then Some (extract_text_from_xlsx file)
  else if String.eqb ext ".pptx" then Some (extract_text_from_pptx file)
  else None.

Definition W_short := "Some sections are very short and lack detail.".
Definition A_short :=
  "Action: Choose one short section and add at least one example or explanation.".
Definition W_conclusion := "There is no clear conclusion at the end of your work.".
Definition A_conclusion :=
  "Action: Add a short conclusion that summarises your key points and links back to the question or purpose.".
Definition W_repeat :=
  "The same word or phrase is repeated many times, which may be a spelling or vocabulary issue.".
Definition A_repeat :=
  "Action: Review repeated words and check their spelling or replace some with alternatives.".

(** The paired checks in evaluation order, each weakness with its action. *)
Definition paired_checks : list (string * string) :=
  [(W_short, A_short); (W_conclusion, A_conclusion); (W_repeat, A_repeat)].

(** The pairs that fire on the blocks [paragraphs] whose last one is [last]. *)
Definition fired (paragraphs : list string) (last : string) : list (string * string) :=
  (if truthy_list (find_short_paragraphs paragraphs) then [(W_short, A_short)] else [])
  ++ (if String.length last <? SHORT_PARAGRAPH_LIMIT
      then [(W_conclusion, A_conclusion)] else [])
  ++ (if truthy_list (find_spelling_issues paragraphs) then [(W_repeat, A_repeat)] else []).

Definition fixed_next_steps : list string :=
  ["Read your work aloud to check that it flows logically and makes sense.";
   "Compare your structure to a model answer or exemplar to see how you could improve organisation.";
   "Ask a peer or teacher to highlight one section that could be clearer, then rewrite it."].

Definition S_sheets := "Your work is organised into clear sections or sheets.".
Definition S_slides := "Your slides are clearly separated and labelled.".

(** [l] is a subsequence of [m]: [m] with some elements left out. *)
Inductive Subseq {A : Type} : list A -> list A -> Prop :=
| Subseq_nil : Subseq [] []
| Subseq_skip x l m : Subseq l m -> Subseq l (x :: m)
| Subseq_keep x l m : Subseq l m -> Subseq (x :: l) (x :: m).

(** Maximal runs of characters of the class [cls], left to right; [cur] is the
    run being read. *)
Definition flush (cur : string) : list string :=
  match cur with EmptyString => [] | _ => [cur] end.

Fixpoint runs (cls : ascii -> bool) (cur : string) (s : string) : list string :=
  match s with
  | EmptyString => flush cur
  | String c s' =>
      if cls c
      then runs cls (cur ++ String c EmptyString)%string s'
      else flush cur ++ runs cls EmptyString s'
  end.

Fixpoint all_chars (cls : ascii -> bool) (s : string) : bool :=
  match s with
  | EmptyString => true
  | String c s' => cls c && all_chars cls s'
  end.

(** The words of a text (maximal runs of [\w] characters) that are made of at
    least three letters of [[a-zA-Z]] and nothing else. *)
Definition good_word (w : string) : bool :=
  (3 <=? String.length w) && all_chars Re.in_class w.

Definition letter_words (text : string) : list string :=
  filter good_word (runs Re.is_word EmptyString text).

(** The specification's wording, read literally: the alphabetic runs of the
    text that have at least three characters. *)
Definition alphabetic_runs (text : string) : list string :=
  filter (fun w => 3 <=? String.length w) (runs Re.in_class EmptyString text).

Definition class_at (c : option ascii) : bool :=
  match c with Some x => Re.in_class x | None => false end.

(** The text after the word in progress: leading [\w] characters dropped. *)
Fixpoint skip_word (s : string) : string :=
  match s with
  | EmptyString => EmptyString
  | String c s' => if Re.is_word c then skip_word s' else s
  end.

(** The count a [Counter] holds for a word (0 when it is not a key). *)
Fixpoint count_of (counts : list (string * nat)) (w : string) : nat :=
  match counts with
  | [] => 0
  | (k, c) :: rest => if String.eqb k w then c else count_of rest w
  end.

(** Number of positions of [text] at which [w] occurs. *)
Fixpoint occurrences (w text : string) : nat :=
  (if String.prefix w text then 1 else 0)
  + match text with
    | EmptyString => 0
    | String _ text' => occurrences w text'
    end.

Definition is_lower_letter (c : ascii) : bool := Py.between 97 122 c.

(** The report, line by line. *)
Definition is_nl (c : ascii) : bool := Py.code c =? 10.

Definition no_newline (s : string) : Prop := all_chars (fun c => negb (is_nl c)) s = true.

(** [s.split("\n")], [cur] being the line being read. *)
Fixpoint split_lines (cur : string) (s : string) : list string :=
  match s with
  | EmptyString => [cur]
  | String c s' =>
      if is_nl c
      then cur :: split_lines EmptyString s'
      else split_lines (cur ++ String c EmptyString)%string s'
  end.

Definition lines (s : string) : list string := split_lines EmptyString s.

(** The lines a section shows under its title: one per entry, or a single
    empty line when there is none. *)
Definition entry_lines (entries : list string) : list string :=
  match entries with
  | [] => [EmptyString]
  | _ => map (fun e => "- " ++ e)%string entries
  end.

(** The text under a section title, entry by entry. *)
Fixpoint section_body (entries : list string) : string :=
  match entries with
  | [] => EmptyString
  | [e] => ("- " ++ e)%string
  | e :: more => ("- " ++ e ++ nl ++ section_body more)%string
  end.

(** ** Sample documents *)

Definition para (t : string) (st : option string) : Paragraph :=
  {| p_text := t;
     p_style := match st with
                | Some n => Some {| style_name := n |}
                | None => None
                end |}.

Definition docx_file (ps : list Paragraph) : UploadedFile :=
  {| as_docx := Some {| doc_paragraphs := ps |}; as_xlsx := None; as_pptx := None |}.

Definition xlsx_file (sheets : list Sheet) : UploadedFile :=
  {| as_docx := None; as_xlsx := Some sheets; as_pptx := None |}.

Definition pptx_file (slides : list Slide) : UploadedFile :=
  {| as_docx := None; as_xlsx := None; as_pptx := Some slides |}.

(** Scenario A of the specification: one heading paragraph, "Intro". *)
Definition scenario_A : UploadedFile := docx_file [para "Intro" (Some "Heading 1")].

(** Scenario B: one sheet with a single cell of 300 characters (the marker
    block of the sheet is itself a short block). *)
Definition scenario_B : UploadedFile :=
  xlsx_file [{| sheet_name := "Sheet1"; cell_values := [Py.repeat_char "x" 300] |}].

(** A deck with one titled slide. *)
Definition one_slide : UploadedFile :=
  pptx_file [{| shapes := [{| shape_text := Some " Title " |}; {| shape_text := None |}] |}].

(** A Word file whose only paragraph has exactly [n] characters. *)
Definition one_block (n : nat) : UploadedFile :=
  docx_file [para (Py.repeat_char "x" n) (Some "Normal")].

(** ** The interactive view of [swan_2.py] *)

Definition S_headings := "You have used headings to organise your work.".
Definition S_bullets := "Bullet points help make your ideas clear and easy to read.".
Definition S_detail := "Most of your sections are developed with enough detail.".
Definition W_unsupported := "Unsupported file type.".
Definition W_empty := "No readable content was found in the file.".

(** What the page shows, call by call.  [st_bullet s] stands for
    [st.write("•", s)]; the button's label is left out. *)
Inductive ui : Type :=
| st_info (text : string)
| st_subheader (title : string)
| st_bullet (entry : string)
| st_write (text : string)
| st_divider
| st_download_button (data file_name mime : string).

(** One section: its subheader, then the first [shown] entries, or the
    fallback message when there is no entry. *)
Definition show_section (shown : nat) (title : string) (entries : list string)
    (fallback : string) : list ui :=
  st_subheader title
  :: (if truthy_list entries
      then map st_bullet (firstn shown entries)
      else [st_write fallback]).

(** An upload: its file name and its content. *)
Record Upload : Type := { upload_name : string; upload_file : UploadedFile }.

(** The body of [if uploaded:], given the extension [os.path.splitext] finds
    in the file name: the calls made on the page, and the exception that
    interrupts them if there is one. *)
Definition page (name_ext : string) (uploaded : Upload) : list ui * option exn :=
  let ext := Py.lower name_ext in
  let shown :=
    [st_info ("File detected: **" ++ upload_name uploaded ++ "** (" ++ ext ++ ")")%string] in
  match run_swan_analysis (upload_file uploaded) ext with
  | Raise e => (shown, Some e)
  | Ok (strengths, weaknesses, actions, next_steps) =>
      let shown := shown ++ show_section 5 "Strengths" strengths
        "No clear strengths were detected. Try adding more structure or detail." in
      let shown := shown ++ show_section 5 "Weaknesses" weaknesses
        "No major weaknesses were detected from this basic analysis." in
      let shown := shown ++ show_section 5 "Actions" actions
        "No specific actions generated." in
      let shown := shown ++ show_section 5 "Next Steps" next_steps
        "No next steps generated." in
      let shown := shown ++ [st_divider] in
      let report := report_text (upload_name uploaded) strengths weaknesses actions next_steps in
      (shown ++ [st_download_button report
                   ("SWAN_Feedback_" ++ upload_name uploaded ++ ".txt")%string
                   "text/plain"],
       None)
  end.

(** ** The Word-only script [swan_app.py] *)

Module SwanApp.

(** The faults the script can end in. *)
Inductive fault : Type :=
| LibraryError     (* [Document(uploaded)] raises *)
| AttributeError   (* [p.style.name] on a paragraph without style *)
| IndexFault.      (* [paragraphs[-1]] on an empty list *)

Inductive outcome (A : Type) : Type :=
| Done (a : A)
| Fault (f : fault).
Arguments Done {A} a.
Arguments Fault {A} f.

Definition and_then {A B : Type} (r : outcome A) (k : A -> outcome B) : outcome B :=
  match r with
  | Done a => k a
  | Fault f => Fault f
  end.

Definition extract_text (doc : Docx) : list string :=
  map (fun p => Py.strip (p_text p))
      (filter (fun p => Py.truthy (Py.strip (p_text p))) (doc_paragraphs doc)).

(** [sum(1 for p in ... if p.style.name.startswith("Heading"))], paragraph by
    paragraph. *)
Fixpoint count_headings_from (ps : list Paragraph) (total : nat) : outcome nat :=
  match ps with
  | [] => Done total
  | p :: more =>
      match p_style p with
      | None => Fault AttributeError
      | Some st =>
          if Py.startswith (style_name st) "Heading"
          then count_headings_from more (S total)
          else count_headings_from more total
      end
  end.

Definition count_headings (doc : Docx) : outcome nat :=
  count_headings_from (doc_paragraphs doc) 0.

(** [any("List" in p.style.name for p in ...)]: stops at the first hit. *)
Fixpoint any_list_style (ps : list Paragraph) : outcome bool :=
  match ps with
  | [] => Done false
  | p :: more =>
      match p_style p with
      | None => Fault AttributeError
      | Some st =>
          if Py.contains "List" (style_name st) then Done true else any_list_style more
      end
  end.

Definition has_bullets (doc : Docx) : outcome bool :=
  any_list_style (doc_paragraphs doc).

Definition W_app_short := "One paragraph is very short and lacks detail.".
Definition A_app_short := "Action: Rewrite the short paragraph and add one example.".
Definition W_app_conclusion := "There is no clear conclusion at the end of your work.".
Definition A_app_conclusion :=
  "Action: Add a short conclusion that links back to the question.".
Definition W_app_repeat := "The same word is misspelt several times.".
Definition A_app_repeat := "Action: Find and fix the spelling errors in your work.".

(** The three lists the script builds from the upload. *)
Definition assess (uploaded : UploadedFile)
  : outcome (list string * list string * list string) :=
  and_then (match as_docx uploaded with Some d => Done d | None => Fault LibraryError end)
  (fun doc =>
  let paragraphs := extract_text doc in
  let strengths : list string := [] in
  let weaknesses : list string := [] in
  let actions : list string := [] in
  and_then (count_headings doc) (fun headings =>
  let strengths :=
    if 1 <=? headings
    then strengths ++ ["You have used headings to organise your work."]
    else strengths in
  and_then (has_bullets doc) (fun bullets =>
  let strengths :=
    if bullets
    then strengths ++ ["Bullet points help make your ideas clear and easy to read."]
    else strengths in
  let strengths :=
    if negb (truthy_list (find_short_paragraphs paragraphs))
    then strengths ++ ["Most of your paragraphs are developed with enough detail."]
    else strengths in
  let '(weaknesses, actions) :=
    if truthy_list (find_short_paragraphs paragraphs)
    then (weaknesses ++ [W_app_short], actions ++ [A_app_short])
    else (weaknesses, actions) in
  and_then (match paragraphs with
            | [] => Fault IndexFault
            | p :: more => Done (List.last more p)
            end) (fun last_block =>
  let '(weaknesses, actions) :=
    if String.length last_block <? SHORT_PARAGRAPH_LIMIT
    then (weaknesses ++ [W_app_conclusion], actions ++ [A_app_conclusion])
    else (weaknesses, actions) in
  let '(weaknesses, actions) :=
    if truthy_list (find_spelling_issues paragraphs)
    then (weaknesses ++ [W_app_repeat], actions ++ [A_app_repeat])
    else (weaknesses, actions) in
  Done (strengths, weaknesses, actions))))).

(** The three sections the script shows: the actions go under "Next Steps". *)
Definition show (strengths weaknesses actions : list string) : list ui :=
  (st_subheader "Strengths" :: map st_bullet (firstn 3 strengths))
  ++ (st_subheader "Weaknesses" :: map st_bullet (firstn 3 weaknesses))
  ++ (st_subheader "Next Steps" :: map st_bullet (firstn 3 actions)).

Definition main (uploaded : UploadedFile) : outcome (list ui) :=
  and_then (assess uploaded) (fun '(strengths, weaknesses, actions) =>
  Done (show strengths weaknesses actions)).

End SwanApp.

(** ** More vocabulary *)

(** The distinct words of a list, each at its first occurrence; [seen] holds
    the words met before. *)
Fixpoint first_occurrences (seen words : list string) : list string :=
  match words with
  | [] => []
  | w :: more =>
      if existsb (String.eqb w) seen
      then first_occurrences seen more
      else w :: first_occurrences (seen ++ [w]) more
  end.

(** The blocks one sheet contributes, and those one slide contributes at
    position [idx] of the deck. *)
Definition sheet_blocks (sheet : Sheet) : list string :=
  ("Sheet: " ++ sheet_name sheet)%string
  :: filter (fun v => Py.truthy (Py.strip v)) (cell_values sheet).

Definition slide_blocks (idx : nat) (slide : Slide) : list string :=
  match slide_text_of (shapes slide) [] with
  | [] => []
  | texts => ("Slide " ++ Py.str_of_nat idx ++ ":")%string :: texts
  end.

Fixpoint deck_blocks (idx : nat) (slides : list Slide) : list string :=
  match slides with
  | [] => []
  | slide :: more => slide_blocks idx slide ++ deck_blocks (S idx) more
  end.

Definition blank (s : string) : bool := negb (Py.truthy (Py.strip s)).

Definition has_heading_style (p : Paragraph) : bool :=
  match p_style p with
  | Some st => Py.startswith (style_name st) "Heading"
  | None => false
  end.

Definition has_list_style (p : Paragraph) : bool :=
  match p_style p with
  | Some st => Py.contains "List" (style_name st)
  | None => false
  end.

(** The strengths of step 2 that come from the structure of the document:
    headings and bullets for Word, markers for the two other formats. *)
Definition structure_strengths (ext : string) (doc : option Docx)
    (paragraphs : list string) : list string :=
  (if String.eqb ext ".docx"
   then (if 1 <=? count_headings_docx doc then [S_headings] else [])
        ++ (if has_bullets_docx doc then [S_bullets] else [])
   else [])
  ++ (if existsb (String.eqb ext) [".xlsx"; ".pptx"]
      then (if existsb (fun p => Py.contains "sheet:" (Py.lower p)) paragraphs
            then [S_sheets] else [])
           ++ (if existsb (fun p => Py.contains "slide" (Py.lower p)) paragraphs
               then [S_slides] else [])
      else []).

(** The pairs of [swan_app.py] that fire on the blocks [paragraphs] whose
    last one is [last]. *)
Definition app_fired (paragraphs : list string) (last : string) : list (string * string) :=
  (if truthy_list (find_short_paragraphs paragraphs)
   then [(SwanApp.W_app_short, SwanApp.A_app_short)] else [])
  ++ (if String.length last <? SHORT_PARAGRAPH_LIMIT
      then [(SwanApp.W_app_conclusion, SwanApp.A_app_conclusion)] else [])
  ++ (if truthy_list (find_spelling_issues paragraphs)
      then [(SwanApp.W_app_repeat, SwanApp.A_app_repeat)] else []).

Definition S_app_detail := "Most of your paragraphs are developed with enough detail.".

Definition styled (p : Paragraph) : bool :=
  match p_style p with Some _ => true | None => false end.

(** ** Sample runs *)

Example run_scenario_A :
  run_swan_analysis scenario_A ".docx"
  = Ok (["You have used headings to organise your work."],
        [W_short; W_conclusion], [A_short; A_conclusion], fixed_next_steps).
Proof. vm_compute. reflexivity. Qed.

Example run_scenario_B :
  run_swan_analysis scenario_B ".xlsx"
  = Ok ([S_sheets], [W_short], [A_short], fixed_next_steps).
Proof. vm_compute. reflexivity. Qed.

Example run_one_slide :
  run_swan_analysis one_slide ".pptx"
  = Ok ([S_slides], [W_short; W_conclusion], [A_short; A_conclusion], fixed_next_steps).
Proof. vm_compute. reflexivity. Qed.



Example findall_ex1 :
  Re.findall "the cat, the dog and the_x abc1 Xyz" = ["the"; "cat"; "the"; "dog"; "and"; "Xyz"].
Proof. vm_compute. reflexivity. Qed.

Example strip_ex1 : Py.strip "  a b  " = "a b".
Proof. reflexivity. Qed.

(** ** The dispatcher *)

Section Dispatcher.

Variable file : UploadedFile.
Variable ext : string.

Lemma index_last_ok (A : Type) (xs : list A) :
  xs <> [] -> exists x, index_last xs = Ok x.
Proof.
  induction xs as [|x xs IH]; intros Hne; [congruence|].
  destruct xs as [|y xs].
  - exists x. reflexivity.
  - destruct IH as [z Hz]; [discriminate|].
    exists z. exact Hz.
Qed.

Lemma index_last_nonempty (A : Type) (xs : list A) (x : A) :
  index_last xs = Ok x -> xs <> [].
Proof. destruct xs; simpl; congruence. Qed.

Lemma index_last_raise (A : Type) (xs : list A) (e : exn) :
  index_last xs = Raise e -> xs = [].
Proof.
  intros H. destruct xs as [|x xs]; [reflexivity|].
  destruct (@index_last_ok A (x :: xs)) as [z Hz]; congruence.
Qed.

(** The dispatcher is its step 1 followed by the analysis of what was
    extracted. *)
Lemma run_swan_analysis_steps :
  run_swan_analysis file ext =
  match extraction file ext with
  | None => Ok ([], ["Unsupported file type."], [], [])
  | Some r => '(doc, paragraphs) <- r ;; analyse ext doc paragraphs
  end.
Proof.
  unfold run_swan_analysis, extraction.
  destruct (String.eqb ext ".docx"); [reflexivity|].
  destruct (String.eqb ext ".xlsx"); [reflexivity|].
  destruct (String.eqb ext ".pptx"); reflexivity.
Qed.

Lemma extraction_supported :
  supported ext <-> extraction file ext <> None.
Proof.
  unfold supported, extraction. split.
  - intros [-> | [-> | ->]]; simpl; discriminate.
  - destruct (String.eqb_spec ext ".docx"); [auto|].
    destruct (String.eqb_spec ext ".xlsx"); [auto|].
    destruct (String.eqb_spec ext ".pptx"); [auto|].
    congruence.
Qed.

Lemma analyse_empty (doc : option Docx) :
  analyse ext doc [] = Ok ([], ["No readable content was found in the file."], [], []).
Proof. reflexivity. Qed.

(** On a non-empty extraction every paired check contributes its weakness
    and its action together or not at all, and the next steps are the fixed
    three. *)
Lemma analyse_nonempty (doc : option Docx) (paragraphs : list string) (last : string) :
  index_last paragraphs = Ok last ->
  exists strengths,
    analyse ext doc paragraphs
    = Ok (strengths, map fst (fired paragraphs last),
          map snd (fired paragraphs last), fixed_next_steps).
Proof.
  intros Hlast.
  assert (Hne : truthy_list paragraphs = true).
  { destruct paragraphs; [discriminate|reflexivity]. }
  unfold analyse, fired. rewrite Hne, Hlast. cbn [negb bind].
  destruct (truthy_list (find_short_paragraphs paragraphs));
    destruct (String.length last <? SHORT_PARAGRAPH_LIMIT);
    destruct (truthy_list (find_spelling_issues paragraphs));
    cbn [negb app map fst snd]; eexists; reflexivity.
Qed.

Lemma run_nonempty (doc : option Docx) (paragraphs : list string) (last : string) :
  extraction file ext = Some (Ok (doc, paragraphs)) ->
  index_last paragraphs = Ok last ->
  exists strengths,
    run_swan_analysis file ext
    = Ok (strengths, map fst (fired paragraphs last),
          map snd (fired paragraphs last), fixed_next_steps).
Proof.
  intros Hex Hlast. rewrite run_swan_analysis_steps, Hex. cbn [bind].
  apply analyse_nonempty. exact Hlast.
Qed.

End Dispatcher.

(** ** Properties of the dispatcher *)

Lemma Subseq_In (A : Type) (l m : list A) (x : A) :
  Subseq l m -> In x l -> In x m.
Proof.
  induction 1 as [|y l m _ IH|y l m _ IH]; simpl; intros Hin.
  - exact Hin.
  - right. apply IH, Hin.
  - destruct Hin as [->|Hin]; [left; reflexivity|right; apply IH, Hin].
Qed.

Lemma Subseq_refl (A : Type) (l : list A) : Subseq l l.
Proof. induction l; constructor; assumption. Qed.

Lemma Subseq_nil_l (A : Type) (l : list A) : Subseq [] l.
Proof. induction l; constructor; assumption. Qed.

Lemma fired_Subseq (paragraphs : list string) (last : string) :
  Subseq (fired paragraphs last) paired_checks.
Proof.
  unfold fired, paired_checks.
  destruct (truthy_list (find_short_paragraphs paragraphs));
    destruct (String.length last <? SHORT_PARAGRAPH_LIMIT);
    destruct (truthy_list (find_spelling_issues paragraphs));
    cbn [app];
    repeat first [apply Subseq_keep | apply Subseq_skip | apply Subseq_nil].
Qed.

Lemma nth_error_unzip (A B : Type) (l : list (A * B)) (k : nat) (a : A) :
  nth_error (map fst l) k = Some a ->
  exists b, nth_error (map snd l) k = Some b /\ In (a, b) l.
Proof.
  revert k. induction l as [|[a0 b0] l IH]; intros [|k]; simpl; try discriminate.
  - intros [= ->]. exists b0. split; [reflexivity|left; reflexivity].
  - intros H. destruct (IH k H) as [b [Hb Hin]].
    exists b. split; [exact Hb|right; exact Hin].
Qed.

(** C1 (as amended): when the extension is supported and the extracted
    content is not empty, the nextSteps list is the three fixed suggestions,
    whatever the content; in the unsupported-extension case and in the
    empty-content case the nextSteps list is empty. *)
Theorem next_steps_three_or_none (file : UploadedFile) (ext : string) :
  (forall doc paragraphs,
      extraction file ext = Some (Ok (doc, paragraphs)) -> paragraphs <> [] ->
      exists strengths weaknesses actions,
        run_swan_analysis file ext = Ok (strengths, weaknesses, actions, fixed_next_steps)
        /\ List.length fixed_next_steps = 3)
  /\ (extraction file ext = None ->
      exists strengths weaknesses actions,
        run_swan_analysis file ext = Ok (strengths, weaknesses, actions, []))
  /\ (forall doc,
      extraction file ext = Some (Ok (doc, [])) ->
      exists strengths weaknesses actions,
        run_swan_analysis file ext = Ok (strengths, weaknesses, actions, [])).
Proof.
  repeat split.
  - intros doc paragraphs Hex Hne.
    destruct (index_last_ok Hne) as [last Hlast].
    destruct (run_nonempty file ext Hex Hlast) as [strengths Hrun].
    exists strengths, (map fst (fired paragraphs last)), (map snd (fired paragraphs last)).
    split; [exact Hrun|reflexivity].
  - intros Hex. rewrite run_swan_analysis_steps, Hex.
    do 3 eexists. reflexivity.
  - intros doc Hex. rewrite run_swan_analysis_steps, Hex. cbn [bind].
    do 3 eexists. reflexivity.
Qed.

Lemma next_steps_three_or_none_witness :
  exists strengths weaknesses actions,
    run_swan_analysis (one_block 5) ".docx"
    = Ok (strengths, weaknesses, actions, fixed_next_steps)
    /\ List.length fixed_next_steps = 3.
Proof.
  eapply (proj1 (next_steps_three_or_none (one_block 5) ".docx")).
  - vm_compute. reflexivity.
  - discriminate.
Defined.

(** The claim of C1 as it is written fails: an unsupported extension yields
    a report whose nextSteps list is empty. *)
Lemma next_steps_not_always_three :
  ~ (forall file ext strengths weaknesses actions next_steps,
        run_swan_analysis file ext = Ok (strengths, weaknesses, actions, next_steps) ->
        List.length next_steps = 3).
Proof.
  intros H.
  specialize (H (docx_file []) ".txt" [] ["Unsupported file type."] [] [] eq_refl).
  discriminate H.
Qed.

(** C2: on a supported extension with non-empty extracted content, the
    weaknesses and the actions are the two projections of one list of fired
    (weakness, action) pairs, taken in order from the three paired checks; so
    both lists have the same length and the k-th weakness stands at the same
    position as its own action. *)
Theorem weaknesses_paired_with_actions
    (file : UploadedFile) (ext : string) (doc : option Docx) (paragraphs : list string) :
  extraction file ext = Some (Ok (doc, paragraphs)) ->
  paragraphs <> [] ->
  exists strengths weaknesses actions next_steps pairs,
    run_swan_analysis file ext = Ok (strengths, weaknesses, actions, next_steps)
    /\ Subseq pairs paired_checks
    /\ weaknesses = map fst pairs
    /\ actions = map snd pairs
    /\ List.length weaknesses = List.length actions
    /\ (forall k w, nth_error weaknesses k = Some w ->
          exists a, nth_error actions k = Some a /\ In (w, a) paired_checks).
Proof.
  intros Hex Hne.
  destruct (index_last_ok Hne) as [last Hlast].
  destruct (run_nonempty file ext Hex Hlast) as [strengths Hrun].
  exists strengths, (map fst (fired paragraphs last)),
    (map snd (fired paragraphs last)), fixed_next_steps, (fired paragraphs last).
  repeat split.
  - exact Hrun.
  - apply fired_Subseq.
  - rewrite !length_map. reflexivity.
  - intros k w Hk.
    destruct (nth_error_unzip _ _ Hk) as [a [Ha Hin]].
    exists a. split; [exact Ha|].
    eapply Subseq_In; [apply fired_Subseq|exact Hin].
Qed.

Lemma weaknesses_paired_with_actions_witness :
  exists strengths weaknesses actions next_steps pairs,
    run_swan_analysis scenario_A ".docx" = Ok (strengths, weaknesses, actions, next_steps)
    /\ Subseq pairs paired_checks
    /\ weaknesses = map fst pairs
    /\ actions = map snd pairs
    /\ List.length weaknesses = List.length actions
    /\ (forall k w, nth_error weaknesses k = Some w ->
          exists a, nth_error actions k = Some a /\ In (w, a) paired_checks).
Proof.
  eapply (@weaknesses_paired_with_actions scenario_A ".docx").
  - vm_compute. reflexivity.
  - discriminate.
Defined.

(** C3: an extension other than .docx, .xlsx and .pptx yields no strengths,
    the single weakness "Unsupported file type.", no actions and no next
    steps, whatever the file holds: nothing of it is read. *)
Theorem unsupported_extension (file : UploadedFile) (ext : string) :
  ext <> ".docx" -> ext <> ".xlsx" -> ext <> ".pptx" ->
  run_swan_analysis file ext = Ok ([], ["Unsupported file type."], [], []).
Proof.
  intros Hd Hx Hp. unfold run_swan_analysis.
  destruct (String.eqb_spec ext ".docx"); [contradiction|].
  destruct (String.eqb_spec ext ".xlsx"); [contradiction|].
  destruct (String.eqb_spec ext ".pptx"); [contradiction|].
  reflexivity.
Qed.

Lemma unsupported_extension_witness :
  run_swan_analysis scenario_A ".txt" = Ok ([], ["Unsupported file type."], [], []).
Proof.
  apply unsupported_extension; discriminate.
Defined.

Lemma find_short_paragraphs_none (paragraphs : list string) :
  Forall (fun p => SHORT_PARAGRAPH_LIMIT <= String.length p) paragraphs ->
  find_short_paragraphs paragraphs = [].
Proof.
  unfold find_short_paragraphs.
  induction 1 as [|p ps Hp _ IH]; [reflexivity|].
  simpl. apply Nat.ltb_ge in Hp. rewrite Hp. exact IH.
Qed.

(** C4: on a supported extension with non-empty extracted content, if the
    last block has at least 260 characters, no block is shorter than 260 and
    no word is repeated, the weaknesses and the actions are both empty. *)
Theorem no_findings_no_weakness
    (file : UploadedFile) (ext : string) (doc : option Docx)
    (paragraphs : list string) (last : string) :
  extraction file ext = Some (Ok (doc, paragraphs)) ->
  index_last paragraphs = Ok last ->
  SHORT_PARAGRAPH_LIMIT <= String.length last ->
  Forall (fun p => SHORT_PARAGRAPH_LIMIT <= String.length p) paragraphs ->
  find_spelling_issues paragraphs = [] ->
  exists strengths next_steps,
    run_swan_analysis file ext = Ok (strengths, [], [], next_steps).
Proof.
  intros Hex Hlast Hlen Hall Hrep.
  destruct (run_nonempty file ext Hex Hlast) as [strengths Hrun].
  exists strengths, fixed_next_steps. rewrite Hrun.
  unfold fired. rewrite (find_short_paragraphs_none Hall), Hrep.
  apply Nat.ltb_ge in Hlen. rewrite Hlen. reflexivity.
Qed.

Lemma no_findings_no_weakness_witness :
  exists strengths next_steps,
    run_swan_analysis (one_block 260) ".docx" = Ok (strengths, [], [], next_steps).
Proof.
  eapply (@no_findings_no_weakness (one_block 260) ".docx").
  - vm_compute. reflexivity.
  - vm_compute. reflexivity.
  - vm_compute. repeat constructor.
  - constructor; [vm_compute; repeat constructor|constructor].
  - vm_compute. reflexivity.
Defined.

(** C7: on a supported extension whose extracted content is exactly one block
    shorter than 260 characters, the weaknesses start with the short-section
    weakness followed by the no-conclusion weakness, and the actions start
    with their two actions; both are reported, nothing is merged.  Only the
    repetition pair may follow. *)
Theorem single_short_block_reported_twice
    (file : UploadedFile) (ext : string) (doc : option Docx) (p : string) :
  extraction file ext = Some (Ok (doc, [p])) ->
  String.length p < SHORT_PARAGRAPH_LIMIT ->
  exists strengths more_w more_a next_steps,
    run_swan_analysis file ext
    = Ok (strengths, W_short :: W_conclusion :: more_w,
          A_short :: A_conclusion :: more_a, next_steps)
    /\ ((more_w = [] /\ more_a = []) \/ (more_w = [W_repeat] /\ more_a = [A_repeat])).
Proof.
  intros Hex Hlen.
  destruct (@run_nonempty file ext doc [p] p Hex eq_refl) as [strengths Hrun].
  rewrite Hrun. unfold fired, find_short_paragraphs.
  apply Nat.ltb_lt in Hlen. cbn [filter]. rewrite Hlen. cbn [truthy_list].
  destruct (truthy_list (find_spelling_issues [p])); cbn [app map fst snd].
  - exists strengths, [W_repeat], [A_repeat], fixed_next_steps.
    split; [reflexivity|right; split; reflexivity].
  - exists strengths, [], [], fixed_next_steps.
    split; [reflexivity|left; split; reflexivity].
Qed.

Lemma single_short_block_reported_twice_witness :
  exists strengths more_w more_a next_steps,
    run_swan_analysis scenario_A ".docx"
    = Ok (strengths, W_short :: W_conclusion :: more_w,
          A_short :: A_conclusion :: more_a, next_steps)
    /\ ((more_w = [] /\ more_a = []) \/ (more_w = [W_repeat] /\ more_a = [A_repeat])).
Proof.
  eapply (@single_short_block_reported_twice scenario_A ".docx").
  - vm_compute. reflexivity.
  - vm_compute. repeat constructor.
Defined.

(** C9: the last-block access of the conclusion check never fails: no run of
    the dispatcher ends in an index error, because a supported extension
    whose extraction is empty returns the empty-content report first. *)
Theorem last_block_access_safe (file : UploadedFile) (ext : string) :
  run_swan_analysis file ext <> Raise IndexError
  /\ (forall doc,
        extraction file ext = Some (Ok (doc, [])) ->
        run_swan_analysis file ext
        = Ok ([], ["No readable content was found in the file."], [], [])).
Proof.
  split.
  - rewrite run_swan_analysis_steps.
    destruct (extraction file ext) as [[[doc paragraphs]|e]|] eqn:Hex.
    + cbn [bind]. destruct paragraphs as [|p ps].
      * rewrite analyse_empty. discriminate.
      * destruct (@index_last_ok _ (p :: ps)) as [last Hlast]; [discriminate|].
        destruct (analyse_nonempty ext doc _ Hlast) as [strengths Hrun].
        rewrite Hrun. discriminate.
    + cbn [bind]. unfold extraction in Hex.
      unfold extract_text_from_docx, extract_text_from_xlsx, extract_text_from_pptx,
        Document, ExcelFile, Presentation, opened in Hex.
      destruct (String.eqb ext ".docx");
        [destruct (as_docx file); cbn [bind] in Hex; congruence|].
      destruct (String.eqb ext ".xlsx");
        [destruct (as_xlsx file); cbn [bind] in Hex; congruence|].
      destruct (String.eqb ext ".pptx");
        [destruct (as_pptx file); cbn [bind] in Hex; congruence|].
      discriminate.
    + discriminate.
  - intros doc Hex. rewrite run_swan_analysis_steps, Hex. reflexivity.
Qed.

Lemma last_block_access_safe_witness :
  run_swan_analysis (docx_file [para "   " None]) ".docx"
  = Ok ([], ["No readable content was found in the file."], [], []).
Proof.
  eapply (proj2 (last_block_access_safe (docx_file [para "   " None]) ".docx")).
  vm_compute. reflexivity.
Defined.

(** ** Short blocks *)

Lemma find_short_paragraphs_In (paragraphs : list string) (p : string) :
  In p (find_short_paragraphs paragraphs)
  <-> In p paragraphs /\ String.length p < SHORT_PARAGRAPH_LIMIT.
Proof.
  unfold find_short_paragraphs. rewrite filter_In, Nat.ltb_lt. reflexivity.
Qed.

Lemma find_short_paragraphs_Subseq (paragraphs : list string) :
  Subseq (find_short_paragraphs paragraphs) paragraphs.
Proof.
  unfold find_short_paragraphs.
  induction paragraphs as [|p ps IH]; simpl; [constructor|].
  destruct (String.length p <? SHORT_PARAGRAPH_LIMIT); constructor; exact IH.
Qed.

Lemma find_short_paragraphs_greatest (paragraphs l : list string) :
  Subseq l paragraphs ->
  Forall (fun p => String.length p < SHORT_PARAGRAPH_LIMIT) l ->
  Subseq l (find_short_paragraphs paragraphs).
Proof.
  unfold find_short_paragraphs.
  induction 1 as [|x l m _ IH|x l m _ IH]; intros Hall; simpl.
  - constructor.
  - destruct (String.length x <? SHORT_PARAGRAPH_LIMIT);
      [apply Subseq_skip|]; apply IH, Hall.
  - inversion Hall as [|? ? Hx Hl]; subst.
    apply Nat.ltb_lt in Hx. rewrite Hx.
    apply Subseq_keep, IH, Hl.
Qed.

(** C6: [find_short_paragraphs] returns the blocks of fewer than 260
    characters, in their order and with their repetitions: it is a
    subsequence of the blocks, it holds exactly the blocks below 260, and
    every subsequence of short blocks is a subsequence of it.  A block of
    exactly 260 characters is never in the result; a block of 259 is. *)
Theorem find_short_paragraphs_exact (paragraphs : list string) :
  Subseq (find_short_paragraphs paragraphs) paragraphs
  /\ (forall p, In p (find_short_paragraphs paragraphs)
                <-> In p paragraphs /\ String.length p < 260)
  /\ (forall l, Subseq l paragraphs ->
                Forall (fun p => String.length p < 260) l ->
                Subseq l (find_short_paragraphs paragraphs))
  /\ (forall p, String.length p = 260 -> ~ In p (find_short_paragraphs paragraphs))
  /\ (forall p, String.length p = 259 -> In p paragraphs ->
                In p (find_short_paragraphs paragraphs)).
Proof.
  change 260 with SHORT_PARAGRAPH_LIMIT.
  split; [apply find_short_paragraphs_Subseq|].
  split; [apply find_short_paragraphs_In|].
  split; [apply find_short_paragraphs_greatest|].
  split.
  - intros p Hlen Hin. apply find_short_paragraphs_In in Hin.
    destruct Hin as [_ Hlt]. rewrite Hlen in Hlt. apply (Nat.lt_irrefl _ Hlt).
  - intros p Hlen Hin. apply find_short_paragraphs_In.
    split; [exact Hin|]. rewrite Hlen. unfold SHORT_PARAGRAPH_LIMIT. lia.
Qed.

Lemma find_short_paragraphs_exact_witness :
  In (Py.repeat_char "x" 259)
     (find_short_paragraphs [Py.repeat_char "x" 260; Py.repeat_char "x" 259])
  /\ ~ In (Py.repeat_char "x" 260)
          (find_short_paragraphs [Py.repeat_char "x" 260; Py.repeat_char "x" 259]).
Proof.
  pose proof (find_short_paragraphs_exact
                [Py.repeat_char "x" 260; Py.repeat_char "x" 259]) as H.
  destruct H as [_ [_ [_ [H260 H259]]]].
  split.
  - apply H259; [vm_compute; reflexivity|right; left; reflexivity].
  - apply H260. vm_compute. reflexivity.
Defined.

(** ** Marker blocks of spreadsheets and slide decks *)

Lemma lower_app (s t : string) :
  Py.lower (s ++ t) = (Py.lower s ++ Py.lower t)%string.
Proof. induction s as [|c s IH]; simpl; [reflexivity|rewrite IH; reflexivity]. Qed.

Lemma xlsx_blocks_acc (sheets : list Sheet) (acc : list string) :
  xlsx_blocks sheets acc = acc ++ xlsx_blocks sheets [].
Proof.
  revert acc. induction sheets as [|sh more IH]; intros acc; simpl.
  - rewrite app_nil_r. reflexivity.
  - rewrite IH. rewrite (IH (_ :: _)). rewrite <- !app_assoc. reflexivity.
Qed.

Lemma xlsx_blocks_marker (sheets : list Sheet) :
  xlsx_blocks sheets [] <> [] ->
  exists name rest, xlsx_blocks sheets [] = ("Sheet: " ++ name)%string :: rest.
Proof.
  destruct sheets as [|sh more]; [simpl; congruence|].
  intros _. simpl. rewrite xlsx_blocks_acc.
  exists (sheet_name sh). eexists. reflexivity.
Qed.

Lemma pptx_blocks_acc (slides : list Slide) (i : nat) (acc : list string) :
  pptx_blocks slides i acc = acc ++ pptx_blocks slides i [].
Proof.
  revert i acc. induction slides as [|sl more IH]; intros i acc; simpl.
  - rewrite app_nil_r. reflexivity.
  - destruct (slide_text_of (shapes sl) []) as [|t ts].
    + apply IH.
    + rewrite IH. rewrite (IH _ (_ :: _)). rewrite <- !app_assoc. reflexivity.
Qed.

Lemma pptx_blocks_marker (slides : list Slide) (i : nat) :
  pptx_blocks slides i [] <> [] ->
  exists n rest,
    pptx_blocks slides i [] = ("Slide " ++ Py.str_of_nat n ++ ":")%string :: rest.
Proof.
  revert i. induction slides as [|sl more IH]; intros i; simpl; [congruence|].
  destruct (slide_text_of (shapes sl) []) as [|t ts].
  - apply IH.
  - intros _. rewrite pptx_blocks_acc. exists i. eexists. reflexivity.
Qed.

Lemma sheet_marker_detected (name : string) :
  Py.contains "sheet:" (Py.lower ("Sheet: " ++ name)) = true.
Proof.
  rewrite lower_app. change (Py.lower "Sheet: ") with "sheet: ". reflexivity.
Qed.

Lemma slide_marker_detected (tail : string) :
  Py.contains "slide" (Py.lower ("Slide " ++ tail)) = true.
Proof.
  rewrite lower_app. change (Py.lower "Slide ") with "slide ". reflexivity.
Qed.

(** The structure strengths of step 2, for the two formats without style
    metadata. *)
Lemma analyse_marker_strengths (ext : string) (doc : option Docx)
    (paragraphs : list string) (strengths weaknesses actions next_steps : list string) :
  existsb (String.eqb ext) [".xlsx"; ".pptx"] = true ->
  analyse ext doc paragraphs = Ok (strengths, weaknesses, actions, next_steps) ->
  paragraphs <> [] ->
  (existsb (fun p => Py.contains "sheet:" (Py.lower p)) paragraphs = true ->
   In S_sheets strengths)
  /\ (existsb (fun p => Py.contains "slide" (Py.lower p)) paragraphs = true ->
      In S_slides strengths).
Proof.
  intros Hext Hrun Hne.
  destruct (index_last_ok Hne) as [last Hlast].
  assert (Ht : truthy_list paragraphs = true).
  { destruct paragraphs; [congruence|reflexivity]. }
  unfold analyse in Hrun. rewrite Ht, Hlast, Hext in Hrun. cbn [negb bind] in Hrun.
  destruct (existsb (fun p => Py.contains "sheet:" (Py.lower p)) paragraphs);
    destruct (existsb (fun p => Py.contains "slide" (Py.lower p)) paragraphs);
    destruct (String.eqb ext ".docx");
    destruct (1 <=? count_headings_docx doc);
    destruct (has_bullets_docx doc);
    destruct (truthy_list (find_short_paragraphs paragraphs));
    destruct (String.length last <? SHORT_PARAGRAPH_LIMIT);
    destruct (truthy_list (find_spelling_issues paragraphs));
    cbn [negb app] in Hrun; injection Hrun as <- _ _ _;
    (split; intros Hc; [try discriminate Hc|try discriminate Hc]);
    unfold S_sheets, S_slides; cbn [In]; tauto.
Qed.

(** C10: every .xlsx upload whose extraction yields a block starts with a
    "Sheet: <name>" marker block and gets the sections-or-sheets strength;
    every .pptx upload whose extraction yields a block starts with a
    "Slide <n>:" marker block and gets the slides strength. *)
Theorem marker_blocks_give_strengths (file : UploadedFile) :
  (forall doc paragraphs,
      extract_text_from_xlsx file = Ok (doc, paragraphs) -> paragraphs <> [] ->
      (exists name rest, paragraphs = ("Sheet: " ++ name)%string :: rest)
      /\ exists strengths weaknesses actions next_steps,
          run_swan_analysis file ".xlsx" = Ok (strengths, weaknesses, actions, next_steps)
          /\ In "Your work is organised into clear sections or sheets." strengths)
  /\ (forall doc paragraphs,
      extract_text_from_pptx file = Ok (doc, paragraphs) -> paragraphs <> [] ->
      (exists n rest, paragraphs = ("Slide " ++ Py.str_of_nat n ++ ":")%string :: rest)
      /\ exists strengths weaknesses actions next_steps,
          run_swan_analysis file ".pptx" = Ok (strengths, weaknesses, actions, next_steps)
          /\ In "Your slides are clearly separated and labelled." strengths).
Proof.
  split; intros doc paragraphs Hex Hne.
  - assert (Hm : exists name rest, paragraphs = ("Sheet: " ++ name)%string :: rest).
    { unfold extract_text_from_xlsx in Hex.
      destruct (ExcelFile file) as [xls|e]; cbn [bind] in Hex; [|discriminate].
      injection Hex as _ <-. apply xlsx_blocks_marker, Hne. }
    split; [exact Hm|].
    destruct (index_last_ok Hne) as [last Hlast].
    destruct (@run_nonempty file ".xlsx" doc paragraphs last) as [strengths Hrun];
      [unfold extraction; cbn; rewrite Hex; reflexivity|exact Hlast|].
    do 4 eexists. split; [exact Hrun|].
    rewrite run_swan_analysis_steps in Hrun.
    unfold extraction in Hrun. cbn [String.eqb Ascii.eqb Bool.eqb] in Hrun.
    rewrite Hex in Hrun. cbn [bind] in Hrun.
    apply (analyse_marker_strengths ".xlsx" doc eq_refl Hrun Hne).
    destruct Hm as [name [rest ->]]. cbn [existsb].
    rewrite sheet_marker_detected. reflexivity.
  - assert (Hm : exists n rest,
               paragraphs = ("Slide " ++ Py.str_of_nat n ++ ":")%string :: rest).
    { unfold extract_text_from_pptx in Hex.
      destruct (Presentation file) as [prs|e]; cbn [bind] in Hex; [|discriminate].
      injection Hex as _ <-. apply pptx_blocks_marker, Hne. }
    split; [exact Hm|].
    destruct (index_last_ok Hne) as [last Hlast].
    destruct (@run_nonempty file ".pptx" doc paragraphs last) as [strengths Hrun];
      [unfold extraction; cbn; rewrite Hex; reflexivity|exact Hlast|].
    do 4 eexists. split; [exact Hrun|].
    rewrite run_swan_analysis_steps in Hrun.
    unfold extraction in Hrun. cbn [String.eqb Ascii.eqb Bool.eqb] in Hrun.
    rewrite Hex in Hrun. cbn [bind] in Hrun.
    apply (analyse_marker_strengths ".pptx" doc eq_refl Hrun Hne).
    destruct Hm as [n [rest ->]]. cbn [existsb].
    rewrite slide_marker_detected. reflexivity.
Qed.

Lemma marker_blocks_give_strengths_witness :
  (exists strengths weaknesses actions next_steps,
      run_swan_analysis scenario_B ".xlsx" = Ok (strengths, weaknesses, actions, next_steps)
      /\ In "Your work is organised into clear sections or sheets." strengths)
  /\ (exists strengths weaknesses actions next_steps,
      run_swan_analysis one_slide ".pptx" = Ok (strengths, weaknesses, actions, next_steps)
      /\ In "Your slides are clearly separated and labelled." strengths).
Proof.
  split.
  - eapply (proj1 (marker_blocks_give_strengths scenario_B)).
    + vm_compute. reflexivity.
    + discriminate.
  - eapply (proj2 (marker_blocks_give_strengths one_slide)).
    + vm_compute. reflexivity.
    + discriminate.
Defined.

(** ** The downloadable report *)

Lemma str_app_assoc (a b c : string) : ((a ++ b) ++ c = a ++ (b ++ c))%string.
Proof. induction a as [|x a IH]; simpl; [reflexivity|rewrite IH; reflexivity]. Qed.

Lemma str_app_nil_r (a : string) : (a ++ "" = a)%string.
Proof. induction a as [|x a IH]; simpl; [reflexivity|rewrite IH; reflexivity]. Qed.

Lemma section_body_join (entries : list string) :
  section_body entries = Py.join nl (bullet_lines entries).
Proof.
  induction entries as [|e more IH]; [reflexivity|].
  destruct more as [|e' more]; [reflexivity|].
  change (section_body (e :: e' :: more))
    with ("- " ++ e ++ nl ++ section_body (e' :: more))%string.
  rewrite IH. reflexivity.
Qed.

Lemma no_newline_app (s t : string) :
  no_newline s -> no_newline t -> no_newline (s ++ t).
Proof.
  unfold no_newline. induction s as [|c s IH]; simpl; intros Hs Ht; [exact Ht|].
  apply andb_true_iff in Hs. destruct Hs as [Hc Hs].
  rewrite Hc. simpl. apply IH; assumption.
Qed.

Lemma split_lines_plain (cur s t : string) :
  no_newline s -> split_lines cur (s ++ t) = split_lines (cur ++ s) t.
Proof.
  unfold no_newline. revert cur. induction s as [|c s IH]; intros cur Hs; simpl.
  - rewrite str_app_nil_r. reflexivity.
  - simpl in Hs. apply andb_true_iff in Hs. destruct Hs as [Hc Hs].
    apply negb_true_iff in Hc. rewrite Hc. rewrite IH by exact Hs.
    rewrite str_app_assoc. reflexivity.
Qed.

Lemma lines_cons (s t : string) :
  no_newline s -> lines (s ++ nl ++ t) = s :: lines t.
Proof.
  intros Hs. unfold lines. rewrite split_lines_plain by exact Hs. reflexivity.
Qed.

Lemma lines_single (s : string) : no_newline s -> lines s = [s].
Proof.
  intros Hs. unfold lines. rewrite <- (str_app_nil_r s) at 1.
  rewrite split_lines_plain by exact Hs. reflexivity.
Qed.

Lemma no_newline_bullet (e : string) : no_newline e -> no_newline ("- " ++ e).
Proof. intros He. apply no_newline_app; [reflexivity|exact He]. Qed.

Lemma lines_section (entries : list string) (rest : string) :
  Forall no_newline entries ->
  lines (section_body entries ++ nl ++ rest) = entry_lines entries ++ lines rest.
Proof.
  induction 1 as [|e more He Hmore IH].
  - apply (@lines_cons "" rest). reflexivity.
  - destruct more as [|e' more].
    + apply (@lines_cons ("- " ++ e) rest). apply no_newline_bullet, He.
    + change (section_body (e :: e' :: more))
        with ("- " ++ e ++ nl ++ section_body (e' :: more))%string.
      replace (("- " ++ e ++ nl ++ section_body (e' :: more)) ++ nl ++ rest)%string
        with (("- " ++ e) ++ nl ++ (section_body (e' :: more) ++ nl ++ rest))%string
        by (rewrite !str_app_assoc; reflexivity).
      rewrite lines_cons by (apply no_newline_bullet, He).
      rewrite IH. reflexivity.
Qed.

Lemma lines_section_last (entries : list string) :
  Forall no_newline entries ->
  lines (section_body entries) = entry_lines entries.
Proof.
  induction 1 as [|e more He Hmore IH].
  - reflexivity.
  - destruct more as [|e' more].
    + apply (@lines_single ("- " ++ e)). apply no_newline_bullet, He.
    + change (section_body (e :: e' :: more))
        with (("- " ++ e) ++ nl ++ section_body (e' :: more))%string.
      rewrite lines_cons by (apply no_newline_bullet, He).
      rewrite IH. reflexivity.
Qed.

Lemma entry_lines_In (entries : list string) (e : string) :
  In e entries -> In ("- " ++ e)%string (entry_lines entries).
Proof.
  destruct entries as [|e0 more]; [intros []|].
  intros Hin. unfold entry_lines.
  apply (in_map (fun x => "- " ++ x)%string) in Hin. exact Hin.
Qed.

Lemma entry_lines_length (entries : list string) :
  entries <> [] -> List.length (entry_lines entries) = List.length entries.
Proof.
  destruct entries; [congruence|]. intros _. unfold entry_lines. apply length_map.
Qed.

Lemma report_text_sections (name : string) (strengths weaknesses actions next_steps : list string) :
  report_text name strengths weaknesses actions next_steps
  = ("SWAN Feedback Report: " ++ name ++ nl
     ++ "==============================" ++ nl
     ++ "" ++ nl
     ++ "STRENGTHS:" ++ nl ++ section_body strengths ++ nl
     ++ "" ++ nl
     ++ "WEAKNESSES:" ++ nl ++ section_body weaknesses ++ nl
     ++ "" ++ nl
     ++ "ACTIONS:" ++ nl ++ section_body actions ++ nl
     ++ "" ++ nl
     ++ "NEXT STEPS:" ++ nl ++ section_body next_steps)%string.
Proof.
  unfold report_text. rewrite !section_body_join.
  change (Py.repeat_char "=" 30) with "==============================".
  rewrite !str_app_assoc. reflexivity.
Qed.

(** C8: the report starts with the line "SWAN Feedback Report: <filename>"
    and a line of 30 '=' characters, then holds the sections STRENGTHS:,
    WEAKNESSES:, ACTIONS: and NEXT STEPS: in that order, each followed by one
    "- <entry>" line for every entry of its list, however many there are. *)
Theorem report_text_layout
    (name : string) (strengths weaknesses actions next_steps : list string) :
  report_text name strengths weaknesses actions next_steps
  = ("SWAN Feedback Report: " ++ name ++ nl
     ++ Py.repeat_char "=" 30 ++ nl
     ++ "" ++ nl
     ++ "STRENGTHS:" ++ nl ++ section_body strengths ++ nl
     ++ "" ++ nl
     ++ "WEAKNESSES:" ++ nl ++ section_body weaknesses ++ nl
     ++ "" ++ nl
     ++ "ACTIONS:" ++ nl ++ section_body actions ++ nl
     ++ "" ++ nl
     ++ "NEXT STEPS:" ++ nl ++ section_body next_steps)%string
  /\ (no_newline name ->
      Forall no_newline strengths -> Forall no_newline weaknesses ->
      Forall no_newline actions -> Forall no_newline next_steps ->
      lines (report_text name strengths weaknesses actions next_steps)
      = [("SWAN Feedback Report: " ++ name)%string;
         "=============================="; ""; "STRENGTHS:"]
        ++ entry_lines strengths
        ++ [""; "WEAKNESSES:"] ++ entry_lines weaknesses
        ++ [""; "ACTIONS:"] ++ entry_lines actions
        ++ [""; "NEXT STEPS:"] ++ entry_lines next_steps
      /\ (forall e,
            In e strengths \/ In e weaknesses \/ In e actions \/ In e next_steps ->
            In ("- " ++ e)%string
               (lines (report_text name strengths weaknesses actions next_steps)))).
Proof.
  split; [apply report_text_sections|].
  intros Hname Hs Hw Ha Hn.
  assert (Hlines :
    lines (report_text name strengths weaknesses actions next_steps)
    = [("SWAN Feedback Report: " ++ name)%string;
       "=============================="; ""; "STRENGTHS:"]
      ++ entry_lines strengths
      ++ [""; "WEAKNESSES:"] ++ entry_lines weaknesses
      ++ [""; "ACTIONS:"] ++ entry_lines actions
      ++ [""; "NEXT STEPS:"] ++ entry_lines next_steps).
  { rewrite report_text_sections.
    rewrite <- (str_app_assoc "SWAN Feedback Report: " name).
    rewrite lines_cons by (apply no_newline_app; [reflexivity|exact Hname]).
    rewrite lines_cons by reflexivity.
    rewrite lines_cons by reflexivity.
    rewrite lines_cons by reflexivity.
    rewrite lines_section by exact Hs.
    rewrite lines_cons by reflexivity.
    rewrite lines_cons by reflexivity.
    rewrite lines_section by exact Hw.
    rewrite lines_cons by reflexivity.
    rewrite lines_cons by reflexivity.
    rewrite lines_section by exact Ha.
    rewrite lines_cons by reflexivity.
    rewrite lines_cons by reflexivity.
    rewrite lines_section_last by exact Hn.
    reflexivity. }
  split; [exact Hlines|].
  intros e He. rewrite Hlines.
  cbn [In app].
  destruct He as [He|[He|[He|He]]]; apply entry_lines_In in He.
  - do 4 right. apply in_or_app. left. exact He.
  - do 4 right. apply in_or_app. right. do 2 right.
    apply in_or_app. left. exact He.
  - do 4 right. apply in_or_app. right. do 2 right.
    apply in_or_app. right. do 2 right. apply in_or_app. left. exact He.
  - do 4 right. apply in_or_app. right. do 2 right.
    apply in_or_app. right. do 2 right. apply in_or_app. right. do 2 right. exact He.
Qed.

Lemma report_text_layout_witness :
  In "- f"
     (lines (report_text "essay.docx" ["a"; "b"; "c"; "d"; "e"; "f"] []
                         [A_short] fixed_next_steps)).
Proof.
  apply (proj2 (report_text_layout "essay.docx" ["a"; "b"; "c"; "d"; "e"; "f"] []
                                  [A_short] fixed_next_steps)).
  - reflexivity.
  - repeat constructor.
  - constructor.
  - repeat constructor.
  - repeat constructor.
  - left. do 5 right. left. reflexivity.
Defined.

(** ** The tokens of the repetition check *)

Section Tokens.

Import Re.

Lemma in_class_word (c : ascii) : in_class c = true -> is_word c = true.
Proof.
  unfold in_class, is_word, Py.isalnum.
  destruct (Py.between 97 122 c); destruct (Py.between 65 90 c);
    simpl; try discriminate; intros _; rewrite ?orb_true_r; reflexivity.
Qed.

Lemma all_chars_impl (P Q : ascii -> bool) (s : string) :
  (forall c, P c = true -> Q c = true) ->
  all_chars P s = true -> all_chars Q s = true.
Proof.
  intros HPQ. induction s as [|c s IH]; simpl; [reflexivity|].
  intros H. apply andb_true_iff in H. destruct H as [Hc Hs].
  rewrite (HPQ c Hc), (IH Hs). reflexivity.
Qed.

Lemma all_chars_app (P : ascii -> bool) (s t : string) :
  all_chars P (s ++ t) = all_chars P s && all_chars P t.
Proof.
  induction s as [|c s IH]; simpl; [reflexivity|].
  rewrite IH, andb_assoc. reflexivity.
Qed.

Lemma str_length_app (s t : string) :
  String.length (s ++ t) = String.length s + String.length t.
Proof. induction s as [|c s IH]; simpl; [reflexivity|rewrite IH; reflexivity]. Qed.

(** *** The letters at a position *)

Lemma span_class_spec (s : string) :
  s = (fst (span_class s) ++ snd (span_class s))%string
  /\ all_chars in_class (fst (span_class s)) = true
  /\ class_at (head (snd (span_class s))) = false.
Proof.
  induction s as [|c s IH]; simpl; [repeat split|].
  destruct (in_class c) eqn:Hc.
  - destruct (span_class s) as [run rest]. simpl in *.
    destruct IH as [Hs [Hall Hhd]].
    rewrite Hc, Hall. repeat split; [f_equal; exact Hs|exact Hhd].
  - simpl. rewrite Hc. repeat split.
Qed.

Lemma substring_all (run : string) :
  String.substring 0 (String.length run) run = run.
Proof. induction run as [|c run IH]; simpl; [reflexivity|rewrite IH; reflexivity]. Qed.

Lemma substring_end (run : string) :
  String.substring (String.length run) 0 run = EmptyString.
Proof. induction run as [|c run IH]; simpl; [reflexivity|exact IH]. Qed.

Lemma substring_prefix_chars (P : ascii -> bool) (run : string) (k : nat) :
  all_chars P run = true -> all_chars P (String.substring 0 k run) = true.
Proof.
  revert k. induction run as [|c run IH]; intros [|k] H; simpl; try reflexivity.
  simpl in H. apply andb_true_iff in H. destruct H as [Hc Hr].
  rewrite Hc, (IH k Hr). reflexivity.
Qed.

Lemma substring_prefix_length (run : string) (k : nat) :
  k <= String.length run -> String.length (String.substring 0 k run) = k.
Proof.
  revert k. induction run as [|c run IH]; intros [|k] H; simpl in *; try reflexivity.
  - lia.
  - rewrite IH by lia. reflexivity.
Qed.

Lemma substring_prefix_of (run rest : string) (k : nat) :
  String.prefix (String.substring 0 k run) (run ++ rest) = true.
Proof.
  revert k. induction run as [|c run IH]; intros k.
  - destruct k; destruct rest; reflexivity.
  - destruct k as [|k]; [reflexivity|]. simpl.
    destruct (ascii_dec c c) as [_|Hn]; [apply IH|congruence].
Qed.

Lemma substring_rest_head (run : string) (k : nat) :
  k < String.length run -> all_chars in_class run = true ->
  exists c t,
    String.substring k (String.length run - k) run = String c t
    /\ in_class c = true.
Proof.
  revert k. induction run as [|c run IH]; intros k Hk Hall; simpl in Hk; [lia|].
  simpl in Hall. apply andb_true_iff in Hall. destruct Hall as [Hc Hr].
  destruct k as [|k].
  - simpl. exists c. eexists. split; [reflexivity|exact Hc].
  - simpl. apply IH; [lia|exact Hr].
Qed.

Lemma last_char_word (p : option ascii) (s : string) :
  word_at p = true \/ s <> EmptyString ->
  all_chars in_class s = true ->
  word_at (last_char p s) = true.
Proof.
  revert p. induction s as [|c s IH]; intros p Hp Hall; simpl.
  - destruct Hp as [Hp|Hp]; [exact Hp|congruence].
  - simpl in Hall. apply andb_true_iff in Hall. destruct Hall as [Hc Hs].
    apply IH; [left; simpl; apply in_class_word, Hc|exact Hs].
Qed.

(** *** One attempt of the pattern *)

Lemma backtrack_eq (run rest : string) (k : nat) :
  backtrack run rest k =
  if (3 <=? k)
     && boundary (last_char None (String.substring 0 k run))
                 (head (String.substring k (String.length run - k) run ++ rest)%string)
  then Some (String.substring 0 k run)
  else match k with
       | O => None
       | S k' => backtrack run rest k'
       end.
Proof. destruct k; reflexivity. Qed.

(** Giving characters back never helps: inside the run the closing [\b]
    stands between two letters. *)
Lemma backtrack_below (run rest : string) (k : nat) :
  all_chars in_class run = true -> k < String.length run ->
  backtrack run rest k = None.
Proof.
  intros Hall. induction k as [|k IH]; intros Hk; rewrite backtrack_eq.
  - reflexivity.
  - destruct (3 <=? S k) eqn:H3; cbn [andb]; [|apply IH; lia].
    destruct (@substring_rest_head run (S k) Hk Hall) as [c [t [Hsub Hc]]].
    rewrite Hsub. unfold boundary. cbn [String.append head word_at].
    rewrite (@in_class_word c Hc).
    rewrite last_char_word.
    + cbn [xorb]. apply IH. lia.
    + right. intros Hempty.
      pose proof (@substring_prefix_length run (S k)) as Hlen.
      rewrite Hempty in Hlen. simpl in Hlen. lia.
    + apply substring_prefix_chars, Hall.
Qed.

Lemma backtrack_full (run rest : string) :
  all_chars in_class run = true ->
  backtrack run rest (String.length run) =
  if (3 <=? String.length run) && negb (word_at (head rest))
  then Some run else None.
Proof.
  intros Hall. rewrite backtrack_eq.
  rewrite substring_all, Nat.sub_diag, substring_end. cbn [String.append].
  assert (Hbelow : match String.length run with
                   | O => None
                   | S k' => backtrack run rest k'
                   end = None).
  { destruct (String.length run) as [|k'] eqn:Hlen; [reflexivity|].
    apply backtrack_below; [exact Hall|lia]. }
  rewrite Hbelow.
  destruct (3 <=? String.length run) eqn:H3; cbn [andb]; [|reflexivity].
  unfold boundary. rewrite last_char_word; [|right|exact Hall].
  - destruct (word_at (head rest)); reflexivity.
  - intros ->. simpl in H3. discriminate.
Qed.

Lemma match_here_spec (prev : option ascii) (s : string) :
  match_here prev s =
  if boundary prev (head s)
     && (3 <=? String.length (fst (span_class s)))
     && negb (word_at (head (snd (span_class s))))
  then Some (fst (span_class s))
  else None.
Proof.
  unfold match_here.
  destruct (boundary prev (head s)); [|reflexivity]. cbn [andb].
  destruct (span_class_spec s) as [_ [Hall _]].
  destruct (span_class s) as [run rest]. cbn [fst snd] in *.
  apply backtrack_full, Hall.
Qed.

Lemma match_here_prefix (prev : option ascii) (s m : string) :
  match_here prev s = Some m ->
  String.prefix m s = true /\ good_word m = true.
Proof.
  rewrite match_here_spec.
  destruct (span_class_spec s) as [Hs [Hall _]].
  destruct (boundary prev (head s)); [|discriminate]. cbn [andb].
  destruct (3 <=? String.length (fst (span_class s))) eqn:H3; [|discriminate].
  cbn [andb].
  destruct (negb (word_at (head (snd (span_class s))))); [|discriminate].
  intros [= <-]. split.
  - rewrite Hs at 2. rewrite <- (substring_all (fst (span_class s))) at 1.
    apply substring_prefix_of.
  - unfold good_word. rewrite H3, Hall. reflexivity.
Qed.


(** *** Words of a text *)

Lemma runs_app (cls : ascii -> bool) (w cur s : string) :
  all_chars cls w = true ->
  runs cls cur (w ++ s) = runs cls (cur ++ w) s.
Proof.
  revert cur. induction w as [|c w IH]; intros cur Hw; simpl.
  - rewrite str_app_nil_r. reflexivity.
  - simpl in Hw. apply andb_true_iff in Hw. destruct Hw as [Hc Hw].
    rewrite Hc, IH by exact Hw. rewrite str_app_assoc. reflexivity.
Qed.

Lemma runs_break (cur s : string) :
  word_at (head s) = false ->
  runs is_word cur s = flush cur ++ runs is_word EmptyString s.
Proof.
  destruct s as [|c s]; simpl; intros Hc.
  - rewrite app_nil_r. reflexivity.
  - rewrite Hc. reflexivity.
Qed.

Lemma skip_word_app (w r : string) :
  all_chars is_word w = true -> skip_word (w ++ r) = skip_word r.
Proof.
  induction w as [|c w IH]; simpl; intros Hw; [reflexivity|].
  apply andb_true_iff in Hw. destruct Hw as [Hc Hw].
  rewrite Hc. apply IH, Hw.
Qed.

Lemma skip_word_stop (r : string) :
  word_at (head r) = false -> skip_word r = r.
Proof. destruct r as [|c r]; simpl; intros Hc; [reflexivity|rewrite Hc; reflexivity]. Qed.

Lemma letter_words_nonword (c : ascii) (s : string) :
  is_word c = false -> letter_words (String c s) = letter_words s.
Proof. intros Hc. unfold letter_words. simpl. rewrite Hc. reflexivity. Qed.

(** A word in progress that already holds a character outside the class
    contributes nothing. *)
Lemma runs_bad_word (cur t : string) :
  all_chars in_class cur = false ->
  filter good_word (runs is_word cur t) = letter_words (skip_word t).
Proof.
  revert cur. induction t as [|e t IH]; intros cur Hbad.
  - simpl. destruct cur as [|c cur]; [discriminate|].
    cbn [flush filter]. unfold good_word at 1. rewrite Hbad, andb_false_r.
    reflexivity.
  - simpl. destruct (is_word e) eqn:He.
    + apply IH. rewrite all_chars_app, Hbad. reflexivity.
    + rewrite filter_app.
      replace (filter good_word (flush cur)) with (@nil string).
      * rewrite (@letter_words_nonword e t He). reflexivity.
      * destruct cur as [|c cur]; [discriminate|].
        cbn [flush filter]. unfold good_word. rewrite Hbad, andb_false_r.
        reflexivity.
Qed.

(** *** The scan *)

Lemma scan_skip (m rest : string) (prev : option ascii) :
  scan (String.length m) prev (m ++ rest) = scan 0 (last_char prev m) rest.
Proof.
  revert prev. induction m as [|c m IH]; intros prev; simpl; [reflexivity|].
  apply IH.
Qed.

Lemma scan_step (prev : option ascii) (c : ascii) (s : string) :
  scan 0 prev (String c s) =
  match match_here prev (String c s) with
  | Some m => m :: scan (String.length m - 1) (Some c) s
  | None => scan 0 (Some c) s
  end.
Proof. reflexivity. Qed.


Lemma not_word_not_class (c : ascii) : is_word c = false -> in_class c = false.
Proof.
  intros Hc. destruct (in_class c) eqn:E; [|reflexivity].
  apply in_class_word in E. congruence.
Qed.

(** The scan yields the letter words of what is left of the text, the word
    in progress (if the scan stands inside one) being lost. *)
Lemma scan_words (n : nat) :
  forall s, String.length s <= n ->
  forall prev,
    scan 0 prev s = letter_words (if word_at prev then skip_word s else s).
Proof.
  induction n as [|n IH]; intros s Hlen prev.
  { destruct s; [|simpl in Hlen; lia]. destruct (word_at prev); reflexivity. }
  destruct s as [|c s']; [destruct (word_at prev); reflexivity|].
  simpl in Hlen. rewrite scan_step, match_here_spec.
  destruct (span_class_spec (String c s')) as [Hs [Hall Hhd]].
  remember (fst (span_class (String c s'))) as run eqn:Hrun.
  remember (snd (span_class (String c s'))) as rest eqn:Hrest.
  unfold boundary. cbn [head word_at].
  destruct (word_at prev) eqn:Hprev; destruct (is_word c) eqn:Hc; cbn [xorb andb].
  - (* inside a word, and still inside *)
    rewrite IH by lia. cbn [word_at skip_word]. rewrite Hc. reflexivity.
  - (* a word has just ended: no letter starts here *)
    assert (Hempty : run = EmptyString).
    { rewrite Hrun. simpl. rewrite (not_word_not_class _ Hc). reflexivity. }
    rewrite Hempty. cbn [String.length Nat.leb andb].
    rewrite IH by lia. cbn [word_at skip_word]. rewrite Hc.
    rewrite (@letter_words_nonword c s' Hc). reflexivity.
  - (* a word starts here *)
    assert (Hword : all_chars is_word run = true).
    { apply (all_chars_impl in_class); [apply in_class_word|exact Hall]. }
    destruct ((3 <=? String.length run) && negb (word_at (head rest))) eqn:Hcond.
    + apply andb_true_iff in Hcond. destruct Hcond as [H3 Hnw].
      apply negb_true_iff in Hnw.
      destruct run as [|c0 run']; [simpl in H3; discriminate|].
      simpl in Hs. injection Hs as <- Hs'.
      cbn [String.length]. rewrite Nat.sub_1_r. cbn [Nat.pred].
      rewrite Hs' at 1. rewrite scan_skip.
      rewrite IH by (rewrite Hs', str_length_app in Hlen; lia).
      simpl in Hall. apply andb_true_iff in Hall. destruct Hall as [Hc0 Hall'].
      rewrite last_char_word; [|left; exact Hc|exact Hall'].
      rewrite (skip_word_stop _ Hnw).
      unfold letter_words. rewrite Hs'.
      change (String c (run' ++ rest)) with (String c run' ++ rest)%string.
      rewrite runs_app by exact Hword. cbn [String.append].
      rewrite (@runs_break (String c run') rest Hnw).
      rewrite filter_app. cbn [flush filter].
      assert (Hgood : good_word (String c run') = true).
      { unfold good_word. rewrite H3. cbn [all_chars]. rewrite Hc0, Hall'.
        reflexivity. }
      rewrite Hgood. reflexivity.
    + rewrite IH by lia. cbn [word_at]. rewrite Hc.
      replace (skip_word s') with (skip_word (String c s'))
        by (simpl; rewrite Hc; reflexivity).
      rewrite Hs. rewrite skip_word_app by exact Hword.
      unfold letter_words at 2.
      destruct (word_at (head rest)) eqn:Hnw.
      * destruct rest as [|d rest']; [discriminate|].
        cbn [head word_at] in Hnw. cbn [head class_at] in Hhd.
        replace (run ++ String d rest')%string
          with ((run ++ String d EmptyString) ++ rest')%string
          by (rewrite str_app_assoc; reflexivity).
        rewrite runs_app
          by (rewrite all_chars_app, Hword; simpl; rewrite Hnw; reflexivity).
        cbn [String.append].
        rewrite runs_bad_word
          by (rewrite all_chars_app, Hall; simpl; rewrite Hhd; reflexivity).
        simpl. rewrite Hnw. reflexivity.
      * rewrite (skip_word_stop _ Hnw).
        rewrite runs_app by exact Hword. cbn [String.append].
        rewrite (@runs_break run rest Hnw).
        rewrite filter_app.
        replace (filter good_word (flush run)) with (@nil string); [reflexivity|].
        rewrite andb_true_r in Hcond.
        destruct run as [|c0 run']; [reflexivity|].
        cbn [flush filter]. unfold good_word. rewrite Hcond. reflexivity.
  - (* between words *)
    rewrite IH by lia. cbn [word_at]. rewrite Hc.
    rewrite (@letter_words_nonword c s' Hc). reflexivity.
Qed.

(** [re.findall] with the pattern returns the letter words of the text. *)
Lemma findall_letter_words (text : string) :
  findall text = letter_words text.
Proof.
  unfold findall. apply (@scan_words (String.length text) text (le_n _) None).
Qed.


(** *** Tokens occur in the text *)

Lemma scan_occurrences (w s : string) :
  forall skip prev, count_occ string_dec (scan skip prev s) w <= occurrences w s.
Proof.
  induction s as [|c s IH]; intros skip prev; [simpl; lia|].
  cbn [occurrences]. destruct skip as [|k].
  - rewrite scan_step. destruct (match_here prev (String c s)) as [m|] eqn:Hm.
    + destruct (@match_here_prefix prev (String c s) m Hm) as [Hpre _].
      cbn [count_occ]. destruct (string_dec m w) as [->|Hne].
      * rewrite Hpre. specialize (IH (String.length w - 1) (Some c)). lia.
      * specialize (IH (String.length m - 1) (Some c)). lia.
    + specialize (IH 0 (Some c)). lia.
  - cbn [scan]. specialize (IH k (Some c)). lia.
Qed.

Lemma prefix_chars (P : ascii -> bool) (w s : string) :
  String.prefix w s = true -> all_chars P s = true -> all_chars P w = true.
Proof.
  revert s. induction w as [|a w IH]; intros s Hpre Hs; [reflexivity|].
  destruct s as [|b s]; simpl in Hpre; [discriminate|].
  destruct (ascii_dec a b) as [->|]; [|discriminate].
  simpl in Hs. apply andb_true_iff in Hs. destruct Hs as [Hb Hs].
  simpl. rewrite Hb. apply (IH s Hpre Hs).
Qed.

Lemma occurrences_chars (P : ascii -> bool) (w s : string) :
  0 < occurrences w s -> all_chars P s = true -> all_chars P w = true.
Proof.
  induction s as [|c s IH]; cbn [occurrences]; intros Hocc Hs.
  - destruct (String.prefix w EmptyString) eqn:Hpre; [|lia].
    apply (@prefix_chars P w _ Hpre Hs).
  - destruct (String.prefix w (String c s)) eqn:Hpre.
    + apply (@prefix_chars P w _ Hpre Hs).
    + simpl in Hs. apply andb_true_iff in Hs. destruct Hs as [_ Hs].
      apply IH; [lia|exact Hs].
Qed.

Lemma lower_char_not_upper (c : ascii) :
  Py.between 65 90 (Py.lower_char c) = false.
Proof.
  destruct c as [b0 b1 b2 b3 b4 b5 b6 b7].
  destruct b0, b1, b2, b3, b4, b5, b6, b7; vm_compute; reflexivity.
Qed.

Lemma lower_no_upper (s : string) :
  all_chars (fun c => negb (Py.between 65 90 c)) (Py.lower s) = true.
Proof.
  induction s as [|c s IH]; simpl; [reflexivity|].
  rewrite lower_char_not_upper, IH. reflexivity.
Qed.

Lemma lower_letters (w : string) :
  all_chars in_class w = true ->
  all_chars (fun c => negb (Py.between 65 90 c)) w = true ->
  all_chars is_lower_letter w = true.
Proof.
  induction w as [|c w IH]; simpl; [reflexivity|].
  intros H1 H2.
  apply andb_true_iff in H1. destruct H1 as [Hc H1].
  apply andb_true_iff in H2. destruct H2 as [Hu H2].
  rewrite (IH H1 H2), andb_true_r.
  unfold in_class in Hc. unfold is_lower_letter.
  destruct (Py.between 65 90 c); [discriminate|].
  rewrite orb_false_r in Hc. exact Hc.
Qed.

End Tokens.

(** ** The counter of the repetition check *)

Section Counting.

Lemma count_of_incr (w0 w : string) (counts : list (string * nat)) :
  count_of (counter_incr w0 counts) w
  = count_of counts w + (if String.eqb w0 w then 1 else 0).
Proof.
  induction counts as [|[k c] rest IH]; simpl; [reflexivity|].
  destruct (String.eqb_spec k w0) as [->|Hk]; simpl.
  - destruct (String.eqb w0 w); lia.
  - destruct (String.eqb_spec k w) as [->|Hkw].
    + destruct (String.eqb_spec w0 w); [congruence|lia].
    + exact IH.
Qed.

Lemma counter_incr_keys (w0 k : string) (counts : list (string * nat)) :
  In k (map fst (counter_incr w0 counts)) -> k = w0 \/ In k (map fst counts).
Proof.
  induction counts as [|[k' c] rest IH]; simpl.
  - intros [<-|[]]. left. reflexivity.
  - destruct (String.eqb k' w0); simpl; intros [<-|Hin]; auto.
    destruct (IH Hin); auto.
Qed.

Lemma counter_incr_NoDup (w0 : string) (counts : list (string * nat)) :
  NoDup (map fst counts) -> NoDup (map fst (counter_incr w0 counts)).
Proof.
  induction counts as [|[k c] rest IH]; simpl; intros Hnd.
  - constructor; [intros []|constructor].
  - inversion Hnd as [|? ? Hnotin Hrest]; subst.
    destruct (String.eqb_spec k w0) as [->|Hk]; simpl.
    + constructor; assumption.
    + constructor; [|apply IH, Hrest].
      intros Hin. apply counter_incr_keys in Hin.
      destruct Hin as [->|Hin]; [congruence|contradiction].
Qed.

Lemma Counter_fold (words : list string) :
  forall counts,
    NoDup (map fst counts) ->
    let r := fold_left (fun cs w => counter_incr w cs) words counts in
    NoDup (map fst r)
    /\ forall w, count_of r w = count_of counts w + count_occ string_dec words w.
Proof.
  induction words as [|w0 words IH]; intros counts Hnd; simpl.
  - split; [exact Hnd|]. intros w. lia.
  - destruct (IH (counter_incr w0 counts) (@counter_incr_NoDup w0 counts Hnd)) as [Hnd' Hc].
    split; [exact Hnd'|]. intros w. rewrite Hc, count_of_incr.
    destruct (string_dec w0 w) as [->|Hne].
    + rewrite String.eqb_refl. lia.
    + destruct (String.eqb_spec w0 w); [congruence|lia].
Qed.

Lemma Counter_spec (words : list string) :
  NoDup (map fst (Counter words))
  /\ forall w, count_of (Counter words) w = count_occ string_dec words w.
Proof.
  destruct (@Counter_fold words [] (NoDup_nil _)) as [Hnd Hc].
  split; [exact Hnd|]. intros w. unfold Counter. rewrite (Hc w). reflexivity.
Qed.

Lemma In_count_of (counts : list (string * nat)) (w : string) (c : nat) :
  NoDup (map fst counts) -> In (w, c) counts -> count_of counts w = c.
Proof.
  induction counts as [|[k c'] rest IH]; simpl; intros Hnd Hin; [contradiction|].
  inversion Hnd as [|? ? Hnotin Hrest]; subst.
  destruct Hin as [[= -> ->]|Hin].
  - rewrite String.eqb_refl. reflexivity.
  - destruct (String.eqb_spec k w) as [->|Hk]; [|apply IH; assumption].
    exfalso. apply Hnotin. apply (in_map fst) in Hin. exact Hin.
Qed.

Lemma count_of_In (counts : list (string * nat)) (w : string) :
  0 < count_of counts w -> In (w, count_of counts w) counts.
Proof.
  induction counts as [|[k c] rest IH]; simpl; intros Hpos; [lia|].
  destruct (String.eqb_spec k w) as [->|Hk]; [left; reflexivity|].
  right. apply IH, Hpos.
Qed.

Lemma NoDup_keys_filter (f : string * nat -> bool) (counts : list (string * nat)) :
  NoDup (map fst counts) -> NoDup (map fst (filter f counts)).
Proof.
  induction counts as [|kc rest IH]; simpl; intros Hnd; [constructor|].
  inversion Hnd as [|? ? Hnotin Hrest]; subst.
  destruct (f kc); simpl; [|apply IH, Hrest].
  constructor; [|apply IH, Hrest].
  intros Hin. apply Hnotin.
  apply in_map_iff in Hin. destruct Hin as [x [Hx Hin]].
  apply filter_In in Hin. destruct Hin as [Hin _].
  rewrite <- Hx. apply in_map, Hin.
Qed.

Lemma find_spelling_issues_count (paragraphs : list string) (w : string) :
  In w (find_spelling_issues paragraphs)
  <-> 3 <= count_occ string_dec
                     (Re.findall (Py.lower (Py.join " " paragraphs))) w.
Proof.
  unfold find_spelling_issues.
  set (words := Re.findall (Py.lower (Py.join " " paragraphs))).
  destruct (Counter_spec words) as [Hnd Hc].
  rewrite <- Hc. split.
  - intros Hin. apply in_map_iff in Hin. destruct Hin as [[k c] [Hk Hin]].
    simpl in Hk. subst k. apply filter_In in Hin. destruct Hin as [Hin Hge].
    cbn [snd] in Hge. apply Nat.leb_le in Hge.
    rewrite (@In_count_of (Counter words) w c Hnd Hin). exact Hge.
  - intros Hge. apply in_map_iff. exists (w, count_of (Counter words) w).
    split; [reflexivity|]. apply filter_In. split.
    + apply count_of_In. lia.
    + cbn [snd]. apply Nat.leb_le. exact Hge.
Qed.

End Counting.

(** ** Repeated words *)

Example tokens_touching_digits :
  Re.findall "abc1 abc1 abc1" = [] /\ alphabetic_runs "abc1 abc1 abc1" = ["abc"; "abc"; "abc"].
Proof. split; vm_compute; reflexivity. Qed.

Example repeated_the :
  find_spelling_issues ["The cat and the dog"; "THE END, the end"] = ["the"].
Proof. vm_compute. reflexivity. Qed.

(** C5 (as amended): [find_spelling_issues] lower-cases the blocks joined by
    single spaces, takes as tokens the words of that text (maximal runs of
    letters, digits and underscores) that consist of at least three letters
    a-z and nothing else, counts the tokens per distinct word, and returns
    each word counted three times or more, once.  Every returned word has at
    least three letters, all lower-case, and occurs at least three times in
    the lower-cased text. *)
Theorem find_spelling_issues_exact (paragraphs : list string) :
  let text := Py.lower (Py.join " " paragraphs) in
  Re.findall text = letter_words text
  /\ NoDup (find_spelling_issues paragraphs)
  /\ (forall w, In w (find_spelling_issues paragraphs)
                <-> 3 <= count_occ string_dec (letter_words text) w)
  /\ (forall w, In w (find_spelling_issues paragraphs) ->
                3 <= String.length w
                /\ all_chars is_lower_letter w = true
                /\ 3 <= occurrences w text).
Proof.
  intros text.
  split; [apply findall_letter_words|].
  split.
  { unfold find_spelling_issues. apply NoDup_keys_filter, Counter_spec. }
  split.
  { intros w. rewrite <- findall_letter_words. apply find_spelling_issues_count. }
  intros w Hin. apply find_spelling_issues_count in Hin. fold text in Hin.
  assert (Hocc : 3 <= occurrences w text).
  { pose proof (scan_occurrences w text 0 None) as Hle.
    unfold Re.findall in Hin. lia. }
  assert (Hgood : good_word w = true).
  { assert (Htok : In w (letter_words text)).
    { rewrite <- findall_letter_words.
      apply (count_occ_In string_dec). lia. }
    unfold letter_words in Htok. apply filter_In in Htok. apply Htok. }
  unfold good_word in Hgood. apply andb_true_iff in Hgood.
  destruct Hgood as [Hlen Hletters].
  split; [apply Nat.leb_le, Hlen|].
  split; [|exact Hocc].
  apply lower_letters; [exact Hletters|].
  apply (@occurrences_chars _ w text); [lia|apply lower_no_upper].
Qed.

Lemma find_spelling_issues_exact_witness :
  3 <= String.length "the"
  /\ all_chars is_lower_letter "the" = true
  /\ 3 <= occurrences "the"
            (Py.lower (Py.join " " ["The cat and the dog"; "THE END, the end"])).
Proof.
  apply (proj2 (proj2 (proj2
           (find_spelling_issues_exact ["The cat and the dog"; "THE END, the end"])))).
  vm_compute. left. reflexivity.
Defined.

(** The claim of C5 as it is written fails: read as alphabetic runs, the
    tokens of "abc1 abc1 abc1" are three times "abc", yet nothing is
    returned, because no word boundary separates a letter from a digit. *)
Lemma alphabetic_runs_not_the_tokens :
  ~ (forall paragraphs w,
        In w (find_spelling_issues paragraphs)
        <-> 3 <= count_occ string_dec
                           (alphabetic_runs (Py.lower (Py.join " " paragraphs))) w).
Proof.
  intros H.
  destruct (H ["abc1 abc1 abc1"] "abc") as [_ Hback].
  assert (Hin : In "abc" (find_spelling_issues ["abc1 abc1 abc1"])).
  { apply Hback. vm_compute. apply le_n. }
  vm_compute in Hin. exact Hin.
Qed.

(** ** Extraction: what the blocks look like *)

Unset Implicit Arguments.

Section Stripping.

Lemma lstrip_head (s : string) :
  Py.lstrip s = EmptyString
  \/ exists c t, Py.lstrip s = String c t /\ Py.isspace c = false.
Proof.
  induction s as [|c s IH]; simpl; [left; reflexivity|].
  destruct (Py.isspace c) eqn:Hc; [exact IH|].
  right. exists c, s. split; [reflexivity|exact Hc].
Qed.

Lemma rstrip_cons (c : ascii) (t : string) :
  Py.isspace c = false -> Py.rstrip (String c t) = String c (Py.rstrip t).
Proof.
  intros Hc. simpl. rewrite Hc. destruct (Py.rstrip t); reflexivity.
Qed.

Lemma rstrip_idem (s : string) : Py.rstrip (Py.rstrip s) = Py.rstrip s.
Proof.
  induction s as [|c s IH]; [reflexivity|].
  simpl. destruct (Py.rstrip s) as [|d r] eqn:Hr.
  - destruct (Py.isspace c) eqn:Hc; [reflexivity|].
    simpl. rewrite Hc. reflexivity.
  - change (Py.rstrip (String c (String d r)))
      with (match Py.rstrip (String d r) with
            | EmptyString => if Py.isspace c then EmptyString else String c EmptyString
            | x => String c x
            end).
    rewrite IH. reflexivity.
Qed.

Lemma lstrip_strip (s : string) : Py.lstrip (Py.strip s) = Py.strip s.
Proof.
  unfold Py.strip. destruct (lstrip_head s) as [->|[c [t [-> Hc]]]]; [reflexivity|].
  rewrite (rstrip_cons c t Hc). simpl. rewrite Hc. reflexivity.
Qed.

Lemma strip_idem (s : string) : Py.strip (Py.strip s) = Py.strip s.
Proof.
  unfold Py.strip at 1. rewrite lstrip_strip. unfold Py.strip. apply rstrip_idem.
Qed.

Lemma rstrip_snoc (s : string) (c : ascii) :
  Py.isspace c = false ->
  Py.rstrip (s ++ String c EmptyString) = (s ++ String c EmptyString)%string.
Proof.
  intros Hc. induction s as [|a s IH].
  - simpl. rewrite Hc. reflexivity.
  - change (Py.rstrip (String a s ++ String c EmptyString))
      with (match Py.rstrip (s ++ String c EmptyString) with
            | EmptyString => if Py.isspace a then EmptyString else String a EmptyString
            | x => String a x
            end).
    rewrite IH. destruct s; reflexivity.
Qed.

Lemma truthy_nonempty (s : string) : Py.truthy s = true <-> s <> EmptyString.
Proof. destruct s; simpl; split; congruence. Qed.

Lemma strip_nonempty_nonempty (s : string) :
  Py.strip s <> EmptyString -> s <> EmptyString.
Proof. intros H ->. apply H. reflexivity. Qed.

(** A text that starts with a character that is no white space is not blank. *)
Lemma strip_keeps_head (c : ascii) (t : string) :
  Py.isspace c = false -> Py.strip (String c t) <> EmptyString.
Proof.
  intros Hc. unfold Py.strip. simpl Py.lstrip. rewrite Hc.
  rewrite (rstrip_cons c t Hc). discriminate.
Qed.

Lemma slide_text_of_spec (shp : list Shape) (acc : list string) :
  slide_text_of shp acc
  = acc ++ map Py.strip
             (filter (fun t => Py.truthy (Py.strip t))
                     (flat_map (fun sh => match shape_text sh with
                                          | Some t => [t]
                                          | None => []
                                          end) shp)).
Proof.
  revert acc. induction shp as [|sh more IH]; intros acc; simpl.
  - rewrite app_nil_r. reflexivity.
  - destruct (shape_text sh) as [t|]; simpl; [|apply IH].
    destruct (Py.truthy (Py.strip t)); rewrite IH; simpl;
      [rewrite <- app_assoc|]; reflexivity.
Qed.

Lemma xlsx_blocks_flat (sheets : list Sheet) :
  xlsx_blocks sheets [] = flat_map sheet_blocks sheets.
Proof.
  induction sheets as [|sh more IH]; [reflexivity|].
  simpl. rewrite xlsx_blocks_acc, IH. reflexivity.
Qed.

Lemma pptx_blocks_deck (slides : list Slide) (idx : nat) :
  pptx_blocks slides idx [] = deck_blocks idx slides.
Proof.
  revert idx. induction slides as [|sl more IH]; intros idx; [reflexivity|].
  simpl. unfold slide_blocks.
  destruct (slide_text_of (shapes sl) []) as [|t ts]; [apply IH|].
  rewrite pptx_blocks_acc, IH. reflexivity.
Qed.

Lemma deck_blocks_app (pre post : list Slide) (idx : nat) :
  deck_blocks idx (pre ++ post)
  = deck_blocks idx pre ++ deck_blocks (idx + List.length pre) post.
Proof.
  revert idx. induction pre as [|sl pre IH]; intros idx; simpl.
  - rewrite Nat.add_0_r. reflexivity.
  - rewrite IH, <- app_assoc. rewrite Nat.add_succ_r. reflexivity.
Qed.

End Stripping.

Lemma docx_blocks_spec (file : UploadedFile) (doc : option Docx) (ps : list string) :
  extract_text_from_docx file = Ok (doc, ps) ->
  exists d, as_docx file = Some d /\ doc = Some d
            /\ ps = map Py.strip (filter (fun t => Py.truthy (Py.strip t))
                                         (map p_text (doc_paragraphs d))).
Proof.
  unfold extract_text_from_docx, Document, opened.
  destruct (as_docx file) as [d|]; cbn [bind]; [|discriminate].
  intros [= <- <-]. exists d. repeat split.
  induction (doc_paragraphs d) as [|p more IH]; [reflexivity|].
  simpl. destruct (Py.truthy (Py.strip (p_text p))); simpl; rewrite IH; reflexivity.
Qed.

Lemma xlsx_blocks_spec (file : UploadedFile) (doc : option Docx) (ps : list string) :
  extract_text_from_xlsx file = Ok (doc, ps) ->
  exists sheets, as_xlsx file = Some sheets /\ doc = None
                 /\ ps = flat_map sheet_blocks sheets.
Proof.
  unfold extract_text_from_xlsx, ExcelFile, opened.
  destruct (as_xlsx file) as [sheets|]; cbn [bind]; [|discriminate].
  intros [= <- <-]. exists sheets. repeat split. apply xlsx_blocks_flat.
Qed.

Lemma pptx_blocks_spec (file : UploadedFile) (doc : option Docx) (ps : list string) :
  extract_text_from_pptx file = Ok (doc, ps) ->
  exists slides, as_pptx file = Some slides /\ doc = None
                 /\ ps = deck_blocks 1 slides.
Proof.
  unfold extract_text_from_pptx, Presentation, opened.
  destruct (as_pptx file) as [slides|]; cbn [bind]; [|discriminate].
  intros [= <- <-]. exists slides. repeat split. apply pptx_blocks_deck.
Qed.

Lemma extraction_cases (file : UploadedFile) (ext : string)
    (r : result (option Docx * list string)) :
  extraction file ext = Some r ->
  (ext = ".docx" /\ r = extract_text_from_docx file)
  \/ (ext = ".xlsx" /\ r = extract_text_from_xlsx file)
  \/ (ext = ".pptx" /\ r = extract_text_from_pptx file).
Proof.
  unfold extraction.
  destruct (String.eqb_spec ext ".docx"); [intros [= <-]; auto|].
  destruct (String.eqb_spec ext ".xlsx"); [intros [= <-]; auto|].
  destruct (String.eqb_spec ext ".pptx"); [intros [= <-]; auto|].
  discriminate.
Qed.

Lemma stripped_text_not_blank (t : string) :
  Py.truthy (Py.strip t) = true ->
  Py.strip (Py.strip t) <> EmptyString /\ Py.strip t <> EmptyString.
Proof.
  intros Ht. apply truthy_nonempty in Ht. rewrite strip_idem. split; exact Ht.
Qed.

Lemma sheet_marker_not_blank (name : string) :
  Py.strip ("Sheet: " ++ name) <> EmptyString.
Proof. apply (strip_keeps_head "S"). reflexivity. Qed.

Lemma slide_marker_stripped (idx : nat) :
  Py.strip ("Slide " ++ Py.str_of_nat idx ++ ":")
  = ("Slide " ++ Py.str_of_nat idx ++ ":")%string.
Proof.
  unfold Py.strip.
  change (Py.lstrip ("Slide " ++ Py.str_of_nat idx ++ ":"))
    with ("Slide " ++ Py.str_of_nat idx ++ ":")%string.
  rewrite <- (str_app_assoc "Slide " (Py.str_of_nat idx) ":").
  apply rstrip_snoc. reflexivity.
Qed.

Lemma slide_blocks_stripped (idx : nat) (slide : Slide) :
  Forall (fun b => Py.strip b = b /\ b <> EmptyString) (slide_blocks idx slide).
Proof.
  unfold slide_blocks. rewrite slide_text_of_spec. cbn [app].
  set (texts := flat_map _ (shapes slide)).
  assert (Hall : Forall (fun b => Py.strip b = b /\ b <> EmptyString)
                        (map Py.strip (filter (fun t => Py.truthy (Py.strip t)) texts))).
  { apply Forall_forall. intros b Hb.
    apply in_map_iff in Hb. destruct Hb as [t [<- Ht]].
    apply filter_In in Ht. destruct Ht as [_ Ht].
    split; [apply strip_idem|apply truthy_nonempty, Ht]. }
  destruct (map Py.strip (filter (fun t => Py.truthy (Py.strip t)) texts)) as [|t ts];
    [constructor|].
  constructor; [|exact Hall].
  split; [apply slide_marker_stripped|discriminate].
Qed.

Lemma deck_blocks_stripped (slides : list Slide) (idx : nat) :
  Forall (fun b => Py.strip b = b /\ b <> EmptyString) (deck_blocks idx slides).
Proof.
  revert idx. induction slides as [|sl more IH]; intros idx; simpl; [constructor|].
  apply Forall_app. split; [apply slide_blocks_stripped|apply IH].
Qed.

(** X1: whatever the format, no extracted block is blank: each one still
    holds a character after trimming, so none is the empty string. *)
Theorem extracted_blocks_not_blank
    (file : UploadedFile) (ext : string) (doc : option Docx) (paragraphs : list string) :
  extraction file ext = Some (Ok (doc, paragraphs)) ->
  Forall (fun b => Py.strip b <> EmptyString /\ b <> EmptyString) paragraphs.
Proof.
  intros Hex. apply extraction_cases in Hex.
  destruct Hex as [[_ Hex]|[[_ Hex]|[_ Hex]]]; symmetry in Hex.
  - destruct (docx_blocks_spec _ _ _ Hex) as [d [_ [_ ->]]].
    apply Forall_forall. intros b Hb.
    apply in_map_iff in Hb. destruct Hb as [t [<- Ht]].
    apply filter_In in Ht. destruct Ht as [_ Ht].
    apply stripped_text_not_blank, Ht.
  - destruct (xlsx_blocks_spec _ _ _ Hex) as [sheets [_ [_ ->]]].
    apply Forall_forall. intros b Hb.
    apply in_flat_map in Hb. destruct Hb as [sh [_ Hb]].
    destruct Hb as [<-|Hb].
    + split; [apply sheet_marker_not_blank|discriminate].
    + apply filter_In in Hb. destruct Hb as [_ Hb].
      apply truthy_nonempty in Hb.
      split; [exact Hb|apply strip_nonempty_nonempty, Hb].
  - destruct (pptx_blocks_spec _ _ _ Hex) as [slides [_ [_ ->]]].
    eapply Forall_impl; [|apply deck_blocks_stripped].
    intros b [Hs Hne]. rewrite Hs. split; exact Hne.
Qed.

Lemma extracted_blocks_not_blank_witness :
  Forall (fun b => Py.strip b <> EmptyString /\ b <> EmptyString)
         ["Slide 1:"; "Title"].
Proof.
  apply (extracted_blocks_not_blank one_slide ".pptx" None).
  vm_compute. reflexivity.
Defined.

(** X2: the blocks of a Word document and of a slide deck, markers included,
    are trimmed: trimming one again changes nothing. *)
Theorem docx_pptx_blocks_trimmed
    (file : UploadedFile) (ext : string) (doc : option Docx) (paragraphs : list string) :
  ext = ".docx" \/ ext = ".pptx" ->
  extraction file ext = Some (Ok (doc, paragraphs)) ->
  Forall (fun b => Py.strip b = b) paragraphs.
Proof.
  intros Hext Hex. apply extraction_cases in Hex.
  destruct Hex as [[_ Hex]|[[-> _]|[_ Hex]]]; try symmetry in Hex.
  - destruct (docx_blocks_spec _ _ _ Hex) as [d [_ [_ ->]]].
    apply Forall_forall. intros b Hb.
    apply in_map_iff in Hb. destruct Hb as [t [<- _]]. apply strip_idem.
  - destruct Hext; discriminate.
  - destruct (pptx_blocks_spec _ _ _ Hex) as [slides [_ [_ ->]]].
    eapply Forall_impl; [|apply deck_blocks_stripped].
    intros b [Hs _]. exact Hs.
Qed.

Lemma docx_pptx_blocks_trimmed_witness :
  Forall (fun b => Py.strip b = b) ["Slide 1:"; "Title"].
Proof.
  apply (docx_pptx_blocks_trimmed one_slide ".pptx" None).
  - right. reflexivity.
  - vm_compute. reflexivity.
Defined.

(** X3: a slide is numbered by its position in the deck, slides without text
    included in the count: the slide after [pre] contributes the marker
    "Slide <length pre + 1>:" followed by its trimmed texts, or nothing at all
    when none of its shapes has text, between the blocks of the slides before
    it and those of the slides after it. *)
Theorem slide_marker_is_deck_position (pre post : list Slide) (slide : Slide) :
  pptx_blocks (pre ++ slide :: post) 1 []
  = pptx_blocks pre 1 []
    ++ match slide_text_of (shapes slide) [] with
       | [] => []
       | texts =>
           ("Slide " ++ Py.str_of_nat (S (List.length pre)) ++ ":")%string :: texts
       end
    ++ pptx_blocks post (S (S (List.length pre))) [].
Proof.
  rewrite !pptx_blocks_deck, deck_blocks_app. reflexivity.
Qed.

Lemma str_app_inv_head (a s t : string) : (a ++ s = a ++ t)%string -> s = t.
Proof. induction a as [|c a IH]; simpl; [auto|]. intros [= H]. apply IH, H. Qed.

Lemma str_app_inv_last (s t : string) (c : ascii) :
  (s ++ String c EmptyString = t ++ String c EmptyString)%string -> s = t.
Proof.
  revert t. induction s as [|a s IH]; intros [|b t]; simpl; intros H.
  - reflexivity.
  - injection H as _ H. destruct t; discriminate.
  - injection H as _ H. destruct s; discriminate.
  - injection H as -> H. f_equal. apply IH, H.
Qed.

Lemma str_of_nat_inj (i j : nat) : Py.str_of_nat i = Py.str_of_nat j -> i = j.
Proof.
  unfold Py.str_of_nat. intros H.
  apply DecimalNat.Unsigned.to_uint_inj.
  apply (f_equal NilEmpty.uint_of_string) in H.
  rewrite !NilEmpty.usu in H. congruence.
Qed.

(** X4: the marker tells the slide: two markers are the same text only for
    the same position. *)
Theorem slide_marker_injective (i j : nat) :
  ("Slide " ++ Py.str_of_nat i ++ ":")%string = ("Slide " ++ Py.str_of_nat j ++ ":")%string ->
  i = j.
Proof.
  intros H. apply str_app_inv_head in H. apply str_app_inv_last in H.
  apply str_of_nat_inj, H.
Qed.

Lemma slide_marker_injective_witness : 12 = 12.
Proof. apply (slide_marker_injective 12 12). vm_compute. reflexivity. Defined.



(** ** The dispatcher: outcomes and contents *)

Lemma analyse_full (ext : string) (doc : option Docx)
    (paragraphs : list string) (last : string) :
  index_last paragraphs = Ok last ->
  analyse ext doc paragraphs
  = Ok (structure_strengths ext doc paragraphs
        ++ (if truthy_list (find_short_paragraphs paragraphs) then [] else [S_detail]),
        map fst (fired paragraphs last), map snd (fired paragraphs last),
        fixed_next_steps).
Proof.
  intros Hlast.
  destruct (analyse_nonempty ext doc paragraphs Hlast) as [strengths Hrun].
  rewrite Hrun. f_equal. f_equal. f_equal. f_equal.
  assert (Hne : truthy_list paragraphs = true).
  { destruct paragraphs; [discriminate|reflexivity]. }
  unfold analyse in Hrun. rewrite Hne, Hlast in Hrun. cbn [negb bind] in Hrun.
  unfold structure_strengths.
  destruct (String.eqb ext ".docx");
    destruct (1 <=? count_headings_docx doc);
    destruct (has_bullets_docx doc);
    destruct (existsb (String.eqb ext) [".xlsx"; ".pptx"]);
    destruct (existsb (fun p => Py.contains "sheet:" (Py.lower p)) paragraphs);
    destruct (existsb (fun p => Py.contains "slide" (Py.lower p)) paragraphs);
    destruct (truthy_list (find_short_paragraphs paragraphs));
    destruct (String.length last <? SHORT_PARAGRAPH_LIMIT);
    destruct (truthy_list (find_spelling_issues paragraphs));
    cbn [negb app] in Hrun; injection Hrun as <- _ _; reflexivity.
Qed.

Lemma run_full (file : UploadedFile) (ext : string) (doc : option Docx)
    (paragraphs : list string) (last : string) :
  extraction file ext = Some (Ok (doc, paragraphs)) ->
  index_last paragraphs = Ok last ->
  run_swan_analysis file ext
  = Ok (structure_strengths ext doc paragraphs
        ++ (if truthy_list (find_short_paragraphs paragraphs) then [] else [S_detail]),
        map fst (fired paragraphs last), map snd (fired paragraphs last),
        fixed_next_steps).
Proof.
  intros Hex Hlast. rewrite run_swan_analysis_steps, Hex. cbn [bind].
  apply analyse_full, Hlast.
Qed.

Lemma structure_strengths_length (ext : string) (doc : option Docx) (ps : list string) :
  List.length (structure_strengths ext doc ps) <= 2.
Proof.
  unfold structure_strengths.
  destruct (String.eqb_spec ext ".docx") as [->|Hne].
  - cbn [existsb String.eqb Ascii.eqb Bool.eqb orb andb]. rewrite app_nil_r.
    destruct (1 <=? count_headings_docx doc); destruct (has_bullets_docx doc);
      cbn; lia.
  - cbn [app].
    destruct (existsb (String.eqb ext) [".xlsx"; ".pptx"]); [|cbn; lia].
    destruct (existsb (fun p => Py.contains "sheet:" (Py.lower p)) ps);
      destruct (existsb (fun p => Py.contains "slide" (Py.lower p)) ps); cbn; lia.
Qed.

Lemma fired_length (ps : list string) (last : string) :
  List.length (fired ps last) <= 3.
Proof.
  unfold fired.
  destruct (truthy_list (find_short_paragraphs ps));
    destruct (String.length last <? SHORT_PARAGRAPH_LIMIT);
    destruct (truthy_list (find_spelling_issues ps)); cbn; lia.
Qed.

(** The three ways a run ends when it returns. *)
Lemma run_outcomes (file : UploadedFile) (ext : string) (r : Feedback) :
  run_swan_analysis file ext = Ok r ->
  (extraction file ext = None /\ r = ([], [W_unsupported], [], []))
  \/ (exists doc, extraction file ext = Some (Ok (doc, []))
                  /\ r = ([], [W_empty], [], []))
  \/ (exists doc paragraphs last,
        extraction file ext = Some (Ok (doc, paragraphs))
        /\ index_last paragraphs = Ok last
        /\ r = (structure_strengths ext doc paragraphs
                ++ (if truthy_list (find_short_paragraphs paragraphs)
                    then [] else [S_detail]),
                map fst (fired paragraphs last), map snd (fired paragraphs last),
                fixed_next_steps)).
Proof.
  intros Hrun.
  destruct (extraction file ext) as [[[doc ps]|e]|] eqn:Hex.
  - destruct ps as [|p ps].
    + right. left. exists doc. split; [reflexivity|].
      rewrite run_swan_analysis_steps, Hex in Hrun. cbn [bind] in Hrun.
      rewrite analyse_empty in Hrun. injection Hrun as <-. reflexivity.
    + right. right.
      destruct (@index_last_ok _ (p :: ps)) as [last Hlast]; [discriminate|].
      exists doc, (p :: ps), last. split; [reflexivity|]. split; [exact Hlast|].
      rewrite (run_full file ext doc (p :: ps) last Hex Hlast) in Hrun. congruence.
  - rewrite run_swan_analysis_steps, Hex in Hrun. discriminate.
  - left. split; [reflexivity|].
    rewrite run_swan_analysis_steps, Hex in Hrun. injection Hrun as <-. reflexivity.
Qed.

Lemma extractor_raise (file : UploadedFile) (ext : string) (e : exn) :
  extraction file ext = Some (Raise e) <->
  e = ParseError
  /\ ((ext = ".docx" /\ as_docx file = None)
      \/ (ext = ".xlsx" /\ as_xlsx file = None)
      \/ (ext = ".pptx" /\ as_pptx file = None)).
Proof.
  split.
  - intros Hex. apply extraction_cases in Hex.
    unfold extract_text_from_docx, extract_text_from_xlsx, extract_text_from_pptx,
      Document, ExcelFile, Presentation, opened in Hex.
    destruct Hex as [[-> Hex]|[[-> Hex]|[-> Hex]]].
    + destruct (as_docx file); cbn [bind] in Hex; [discriminate|].
      injection Hex as ->. auto.
    + destruct (as_xlsx file); cbn [bind] in Hex; [discriminate|].
      injection Hex as ->. auto.
    + destruct (as_pptx file); cbn [bind] in Hex; [discriminate|].
      injection Hex as ->. auto 6.
  - intros [-> [[-> H]|[[-> H]|[-> H]]]]; unfold extraction;
      cbn [String.eqb Ascii.eqb Bool.eqb];
      unfold extract_text_from_docx, extract_text_from_xlsx, extract_text_from_pptx,
        Document, ExcelFile, Presentation, opened; rewrite H; reflexivity.
Qed.

Lemma run_raise_extraction (file : UploadedFile) (ext : string) (e : exn) :
  run_swan_analysis file ext = Raise e <-> extraction file ext = Some (Raise e).
Proof.
  rewrite run_swan_analysis_steps.
  destruct (extraction file ext) as [[[doc ps]|e']|] eqn:Hex; cbn [bind].
  - split; [|discriminate].
    destruct ps as [|p ps]; [rewrite analyse_empty; discriminate|].
    destruct (@index_last_ok _ (p :: ps)) as [last Hlast]; [discriminate|].
    rewrite (analyse_full ext doc (p :: ps) last Hlast). discriminate.
  - split; intros [= ->]; reflexivity.
  - split; discriminate.
Qed.

(** X6: a run ends in an exception exactly when the extension is supported
    and the library for that extension cannot read the file; the exception is
    the library's.  No other exception leaves [run_swan_analysis]. *)
Theorem run_raises_iff_library_fails (file : UploadedFile) (ext : string) (e : exn) :
  run_swan_analysis file ext = Raise e <->
  e = ParseError
  /\ ((ext = ".docx" /\ as_docx file = None)
      \/ (ext = ".xlsx" /\ as_xlsx file = None)
      \/ (ext = ".pptx" /\ as_pptx file = None)).
Proof.
  rewrite run_raise_extraction. apply extractor_raise.
Qed.

Lemma run_raises_iff_library_fails_witness :
  run_swan_analysis scenario_A ".xlsx" = Raise ParseError.
Proof.
  apply (proj2 (run_raises_iff_library_fails scenario_A ".xlsx" ParseError)).
  split; [reflexivity|]. right. left. split; reflexivity.
Defined.

(** X7: the empty-content report is returned exactly when the extension is
    supported, the library reads the file and the extraction yields no block;
    for a Word document that is: every paragraph is blank. *)
Theorem empty_report_iff (file : UploadedFile) (ext : string) :
  (run_swan_analysis file ext = Ok ([], [W_empty], [], [])
   <-> exists doc, extraction file ext = Some (Ok (doc, [])))
  /\ (forall d, ext = ".docx" -> as_docx file = Some d ->
        (run_swan_analysis file ext = Ok ([], [W_empty], [], [])
         <-> Forall (fun p => Py.strip (p_text p) = EmptyString) (doc_paragraphs d))).
Proof.
  assert (Hgen : run_swan_analysis file ext = Ok ([], [W_empty], [], [])
                 <-> exists doc, extraction file ext = Some (Ok (doc, []))).
  { split.
    - intros Hrun. apply run_outcomes in Hrun.
      destruct Hrun as [[_ H]|[[doc [Hex _]]|[doc [ps [last [_ [_ H]]]]]]].
      + unfold W_empty, W_unsupported in H. discriminate H.
      + exists doc. exact Hex.
      + unfold fixed_next_steps in H. discriminate H.
    - intros [doc Hex]. rewrite run_swan_analysis_steps, Hex. reflexivity. }
  split; [exact Hgen|].
  intros d -> Hd. rewrite Hgen.
  unfold extraction. cbn [String.eqb Ascii.eqb Bool.eqb].
  unfold extract_text_from_docx, Document, opened. rewrite Hd. cbn [bind].
  split.
  - intros [doc [= _ Hps]]. apply Forall_forall. intros p Hp.
    destruct (Py.strip (p_text p)) eqn:Hs; [reflexivity|]. exfalso.
    assert (Hin : In p (filter (fun p => Py.truthy (Py.strip (p_text p)))
                               (doc_paragraphs d))).
    { apply filter_In. split; [exact Hp|]. rewrite Hs. reflexivity. }
    destruct (filter _ (doc_paragraphs d)); [exact Hin|discriminate].
  - intros Hall. exists (Some d). do 3 f_equal.
    induction Hall as [|p more Hp _ IH]; [reflexivity|].
    simpl. rewrite Hp. simpl. exact IH.
Qed.

Lemma empty_report_iff_witness :
  run_swan_analysis (docx_file [para "   " None; para "" (Some "Heading 1")]) ".docx"
  = Ok ([], [W_empty], [], []).
Proof.
  apply (proj2 (proj2 (empty_report_iff
                         (docx_file [para "   " None; para "" (Some "Heading 1")])
                         ".docx")
                      {| doc_paragraphs := [para "   " None; para "" (Some "Heading 1")] |}
                      eq_refl eq_refl)).
  repeat constructor.
Defined.

Lemma run_lists_bounded
    (file : UploadedFile) (ext : string)
    (strengths weaknesses actions next_steps : list string) :
  run_swan_analysis file ext = Ok (strengths, weaknesses, actions, next_steps) ->
  List.length strengths <= 3 /\ List.length weaknesses <= 3
  /\ List.length actions <= 3 /\ List.length next_steps <= 3
  /\ List.length actions <= List.length weaknesses.
Proof.
  intros Hrun. apply run_outcomes in Hrun.
  destruct Hrun as [[_ H]|[[doc [_ H]]|[doc [ps [last [_ [_ H]]]]]]];
    injection H as -> -> -> ->; unfold fixed_next_steps; cbn [List.length]; try lia.
  rewrite length_app, !length_map.
  pose proof (structure_strengths_length ext doc ps).
  pose proof (fired_length ps last).
  destruct (truthy_list (find_short_paragraphs ps)); cbn [List.length]; lia.
Qed.

(** X8: whatever is returned, no list has more than three entries, and there
    are never more actions than weaknesses. *)
Theorem feedback_lists_at_most_three
    (file : UploadedFile) (ext : string)
    (strengths weaknesses actions next_steps : list string) :
  run_swan_analysis file ext = Ok (strengths, weaknesses, actions, next_steps) ->
  List.length strengths <= 3 /\ List.length weaknesses <= 3
  /\ List.length actions <= 3 /\ List.length next_steps <= 3
  /\ List.length actions <= List.length weaknesses.
Proof.
  intros Hrun.
  destruct (run_lists_bounded file ext strengths weaknesses actions next_steps Hrun)
    as [Hs [Hw [Ha [Hn Haw]]]].
  repeat split; assumption.
Qed.

Lemma feedback_lists_at_most_three_witness :
  List.length [S_headings] <= 3 /\ List.length [W_short; W_conclusion] <= 3
  /\ List.length [A_short; A_conclusion] <= 3 /\ List.length fixed_next_steps <= 3
  /\ List.length [A_short; A_conclusion] <= List.length [W_short; W_conclusion].
Proof.
  apply (feedback_lists_at_most_three scenario_A ".docx").
  vm_compute. reflexivity.
Defined.

(** ** The page *)

Lemma show_section_In (title fallback e : string) (entries : list string) :
  List.length entries <= 5 -> In e entries ->
  In (st_bullet e) (show_section 5 title entries fallback).
Proof.
  intros Hlen Hin. unfold show_section. right.
  destruct entries as [|x more]; [destruct Hin|]. cbn [truthy_list].
  rewrite firstn_all2 by exact Hlen. apply in_map, Hin.
Qed.

(** X9: when the page completes, every entry of the four lists is shown on
    it (the cut after five entries never drops one) and the download button
    carries the report of the same four lists under the name
    "SWAN_Feedback_<file name>.txt". *)
Theorem page_shows_every_entry (name_ext : string) (uploaded : Upload) (shown : list ui) :
  page name_ext uploaded = (shown, None) ->
  exists strengths weaknesses actions next_steps,
    run_swan_analysis (upload_file uploaded) (Py.lower name_ext)
    = Ok (strengths, weaknesses, actions, next_steps)
    /\ (forall e,
          In e strengths \/ In e weaknesses \/ In e actions \/ In e next_steps ->
          In (st_bullet e) shown)
    /\ In (st_download_button
             (report_text (upload_name uploaded) strengths weaknesses actions next_steps)
             ("SWAN_Feedback_" ++ upload_name uploaded ++ ".txt")
             "text/plain")
          shown.
Proof.
  unfold page.
  destruct (run_swan_analysis (upload_file uploaded) (Py.lower name_ext))
    as [[[[s w] a] n]|e] eqn:Hrun; [|discriminate].
  cbv zeta. intros H. apply (f_equal fst) in H. cbn [fst] in H. subst shown.
  exists s, w, a, n. split; [reflexivity|].
  destruct (run_lists_bounded _ _ _ _ _ _ Hrun) as [Hs [Hw [Ha [Hn _]]]].
  split.
  - intros e He. rewrite !in_app_iff.
    destruct He as [He|[He|[He|He]]].
    + left. left. left. left. left. right. apply show_section_In; [lia|exact He].
    + left. left. left. left. right. apply show_section_In; [lia|exact He].
    + left. left. left. right. apply show_section_In; [lia|exact He].
    + left. left. right. apply show_section_In; [lia|exact He].
  - apply in_or_app. right. left. reflexivity.
Qed.

Lemma page_shows_every_entry_witness :
  exists strengths weaknesses actions next_steps,
    run_swan_analysis scenario_A (Py.lower ".DOCX")
    = Ok (strengths, weaknesses, actions, next_steps)
    /\ (forall e,
          In e strengths \/ In e weaknesses \/ In e actions \/ In e next_steps ->
          In (st_bullet e)
             (fst (page ".DOCX" {| upload_name := "Essay.DOCX"; upload_file := scenario_A |})))
    /\ In (st_download_button
             (report_text "Essay.DOCX" strengths weaknesses actions next_steps)
             "SWAN_Feedback_Essay.DOCX.txt" "text/plain")
          (fst (page ".DOCX" {| upload_name := "Essay.DOCX"; upload_file := scenario_A |})).
Proof.
  apply (page_shows_every_entry ".DOCX"
           {| upload_name := "Essay.DOCX"; upload_file := scenario_A |}).
  vm_compute. reflexivity.
Defined.

(** X10: when the library cannot read the upload, the page stops after the
    "File detected" line: no section and no download button are shown. *)
Theorem page_interrupted (name_ext : string) (uploaded : Upload)
    (shown : list ui) (e : exn) :
  page name_ext uploaded = (shown, Some e) ->
  e = ParseError
  /\ shown = [st_info ("File detected: **" ++ upload_name uploaded ++ "** ("
                       ++ Py.lower name_ext ++ ")")].
Proof.
  unfold page.
  destruct (run_swan_analysis (upload_file uploaded) (Py.lower name_ext))
    as [[[[s w] a] n]|e'] eqn:Hrun; [discriminate|].
  intros [= <- <-].
  apply run_raise_extraction, extractor_raise in Hrun. destruct Hrun as [-> _].
  split; reflexivity.
Qed.

Lemma page_interrupted_witness :
  ParseError = ParseError
  /\ [st_info "File detected: **deck.pptx** (.pptx)"]
     = [st_info ("File detected: **" ++ "deck.pptx" ++ "** (" ++ Py.lower ".pptx" ++ ")")].
Proof.
  apply (page_interrupted ".pptx" {| upload_name := "deck.pptx"; upload_file := scenario_A |}).
  vm_compute. reflexivity.
Defined.

(** ** What each entry of the feedback means *)

Lemma truthy_list_In (A : Type) (l : list A) :
  truthy_list l = true <-> exists x, In x l.
Proof.
  destruct l as [|x l]; simpl; split.
  - discriminate.
  - intros [x []].
  - intros _. exists x. left. reflexivity.
  - reflexivity.
Qed.

Lemma index_last_In (A : Type) (xs : list A) (x : A) :
  index_last xs = Ok x -> In x xs.
Proof.
  induction xs as [|y xs IH]; [discriminate|].
  destruct xs as [|z xs].
  - intros [= ->]. left. reflexivity.
  - intros H. right. apply IH, H.
Qed.

Lemma fired_weaknesses (ps : list string) (last : string) :
  (In W_short (map fst (fired ps last))
   <-> truthy_list (find_short_paragraphs ps) = true)
  /\ (In W_conclusion (map fst (fired ps last))
      <-> (String.length last <? SHORT_PARAGRAPH_LIMIT) = true)
  /\ (In W_repeat (map fst (fired ps last))
      <-> truthy_list (find_spelling_issues ps) = true).
Proof.
  unfold fired.
  destruct (truthy_list (find_short_paragraphs ps));
    destruct (String.length last <? SHORT_PARAGRAPH_LIMIT);
    destruct (truthy_list (find_spelling_issues ps));
    cbn [app map fst In]; unfold W_short, W_conclusion, W_repeat;
    intuition congruence.
Qed.

Lemma structure_strengths_In (ext : string) (doc : option Docx) (ps : list string)
    (e : string) :
  In e (structure_strengths ext doc ps) ->
  (ext = ".docx" /\ (e = S_headings \/ e = S_bullets))
  \/ (ext <> ".docx" /\ (e = S_sheets \/ e = S_slides)).
Proof.
  unfold structure_strengths.
  destruct (String.eqb_spec ext ".docx") as [->|Hne].
  - cbn [existsb String.eqb Ascii.eqb Bool.eqb orb andb]. rewrite app_nil_r.
    destruct (1 <=? count_headings_docx doc); destruct (has_bullets_docx doc);
      cbn [app In]; intuition.
  - cbn [app].
    destruct (existsb (String.eqb ext) [".xlsx"; ".pptx"]); [|intros []].
    destruct (existsb (fun p => Py.contains "sheet:" (Py.lower p)) ps);
      destruct (existsb (fun p => Py.contains "slide" (Py.lower p)) ps);
      cbn [app In]; intuition.
Qed.

Lemma detail_not_structure (ext : string) (doc : option Docx) (ps : list string) :
  ~ In S_detail (structure_strengths ext doc ps).
Proof.
  intros H. apply structure_strengths_In in H.
  unfold S_detail, S_headings, S_bullets, S_sheets, S_slides in H.
  intuition discriminate.
Qed.

(** X11: on an analysed document each weakness tells exactly one finding: the
    short-section weakness that some block has fewer than 260 characters, the
    conclusion weakness that the last block has, the repetition weakness
    that some word is found repeated.  Hence the conclusion weakness never
    comes without the short-section weakness, and the enough-detail strength
    is present exactly when the short-section weakness is absent. *)
Theorem weaknesses_tell_the_findings
    (file : UploadedFile) (ext : string) (doc : option Docx)
    (paragraphs : list string) (last : string)
    (strengths weaknesses actions next_steps : list string) :
  extraction file ext = Some (Ok (doc, paragraphs)) ->
  index_last paragraphs = Ok last ->
  run_swan_analysis file ext = Ok (strengths, weaknesses, actions, next_steps) ->
  (In W_short weaknesses
   <-> exists p, In p paragraphs /\ String.length p < 260)
  /\ (In W_conclusion weaknesses <-> String.length last < 260)
  /\ (In W_repeat weaknesses <-> exists w, In w (find_spelling_issues paragraphs))
  /\ (In W_conclusion weaknesses -> In W_short weaknesses)
  /\ (In S_detail strengths <-> ~ In W_short weaknesses).
Proof.
  intros Hex Hlast Hrun.
  rewrite (run_full file ext doc paragraphs last Hex Hlast) in Hrun.
  injection Hrun as <- <- _ _.
  destruct (fired_weaknesses paragraphs last) as [Hshort [Hconc Hrep]].
  assert (Hs : truthy_list (find_short_paragraphs paragraphs) = true
               <-> exists p, In p paragraphs /\ String.length p < 260).
  { rewrite truthy_list_In. split; intros [p Hp]; exists p;
      apply find_short_paragraphs_In; exact Hp. }
  split; [rewrite Hshort; exact Hs|].
  split; [rewrite Hconc; apply Nat.ltb_lt|].
  split; [rewrite Hrep; apply truthy_list_In|].
  split.
  - rewrite Hconc, Hshort, Hs. intros Hl. exists last.
    split; [apply index_last_In, Hlast|apply Nat.ltb_lt, Hl].
  - rewrite Hshort, in_app_iff.
    destruct (truthy_list (find_short_paragraphs paragraphs)); split.
    + intros [H|[]]. exfalso. apply (detail_not_structure _ _ _ H).
    + intros H. exfalso. apply H. reflexivity.
    + intros _. discriminate.
    + intros _. right. left. reflexivity.
Qed.

Lemma weaknesses_tell_the_findings_witness :
  exists p, In p ["Intro"] /\ String.length p < 260.
Proof.
  apply (proj1 (weaknesses_tell_the_findings scenario_A ".docx"
           (Some {| doc_paragraphs := [para "Intro" (Some "Heading 1")] |})
           ["Intro"] "Intro" [S_headings] [W_short; W_conclusion]
           [A_short; A_conclusion] fixed_next_steps
           eq_refl eq_refl eq_refl)).
  left. reflexivity.
Defined.

Lemma filter_length_pos (A : Type) (f : A -> bool) (l : list A) :
  (1 <=? List.length (filter f l)) = true <-> exists x, In x l /\ f x = true.
Proof.
  rewrite Nat.leb_le. split.
  - intros Hlen. destruct (filter f l) as [|x more] eqn:Hf; [simpl in Hlen; lia|].
    exists x. apply filter_In. rewrite Hf. left. reflexivity.
  - intros [x Hx]. apply filter_In in Hx.
    destruct (filter f l); [destruct Hx|simpl; lia].
Qed.

Lemma docx_analysed (file : UploadedFile) (d : Docx) :
  as_docx file = Some d ->
  (exists p, In p (doc_paragraphs d) /\ Py.strip (p_text p) <> EmptyString) ->
  exists paragraphs last,
    extraction file ".docx" = Some (Ok (Some d, paragraphs))
    /\ index_last paragraphs = Ok last.
Proof.
  intros Hd [p [Hp Hne]].
  set (ps := map (fun p => Py.strip (p_text p))
                 (filter (fun p => Py.truthy (Py.strip (p_text p))) (doc_paragraphs d))).
  assert (Hps : ps <> []).
  { assert (Hin : In (Py.strip (p_text p)) ps).
    { apply in_map_iff. exists p. split; [reflexivity|].
      apply filter_In. split; [exact Hp|apply truthy_nonempty, Hne]. }
    intros Heq. rewrite Heq in Hin. exact Hin. }
  destruct (index_last_ok Hps) as [last Hlast].
  exists ps, last. split; [|exact Hlast].
  unfold extraction. cbn [String.eqb Ascii.eqb Bool.eqb].
  unfold extract_text_from_docx, Document, opened. rewrite Hd. reflexivity.
Qed.

(** X12: for a Word document with some readable text, the headings strength
    is given exactly when some paragraph, blank or not, has a style whose
    name starts with "Heading", and the bullets strength exactly when some
    paragraph has a style whose name contains "List"; the two marker
    strengths are never given. *)
Theorem word_strengths_follow_styles
    (file : UploadedFile) (d : Docx)
    (strengths weaknesses actions next_steps : list string) :
  as_docx file = Some d ->
  (exists p, In p (doc_paragraphs d) /\ Py.strip (p_text p) <> EmptyString) ->
  run_swan_analysis file ".docx" = Ok (strengths, weaknesses, actions, next_steps) ->
  (In S_headings strengths
   <-> exists p st, In p (doc_paragraphs d) /\ p_style p = Some st
                    /\ String.prefix "Heading" (style_name st) = true)
  /\ (In S_bullets strengths
      <-> exists p st, In p (doc_paragraphs d) /\ p_style p = Some st
                       /\ Py.contains "List" (style_name st) = true)
  /\ ~ In S_sheets strengths
  /\ ~ In S_slides strengths.
Proof.
  intros Hd Hread Hrun.
  destruct (docx_analysed file d Hd Hread) as [ps [last [Hex Hlast]]].
  rewrite (run_full file ".docx" (Some d) ps last Hex Hlast) in Hrun.
  injection Hrun as <- _ _ _.
  unfold structure_strengths.
  cbn [existsb String.eqb Ascii.eqb Bool.eqb orb andb]. rewrite app_nil_r.
  assert (Hh : (1 <=? count_headings_docx (Some d)) = true
               <-> exists p st, In p (doc_paragraphs d) /\ p_style p = Some st
                                /\ String.prefix "Heading" (style_name st) = true).
  { unfold count_headings_docx. rewrite filter_length_pos. split.
    - intros [p [Hp Hf]]. destruct (p_style p) as [st|] eqn:Hst; [|discriminate].
      exists p, st. auto.
    - intros [p [st [Hp [Hst Hf]]]]. exists p. rewrite Hst. auto. }
  assert (Hb : has_bullets_docx (Some d) = true
               <-> exists p st, In p (doc_paragraphs d) /\ p_style p = Some st
                                /\ Py.contains "List" (style_name st) = true).
  { unfold has_bullets_docx. rewrite existsb_exists. split.
    - intros [p [Hp Hf]]. destruct (p_style p) as [st|] eqn:Hst.
      + exists p, st. auto.
      + discriminate Hf.
    - intros [p [st [Hp [Hst Hf]]]]. exists p. rewrite Hst. auto. }
  rewrite <- Hh, <- Hb.
  destruct (1 <=? count_headings_docx (Some d));
    destruct (has_bullets_docx (Some d));
    destruct (truthy_list (find_short_paragraphs ps));
    cbn [app In];
    unfold S_headings, S_bullets, S_sheets, S_slides, S_detail;
    intuition congruence.
Qed.

Lemma word_strengths_follow_styles_witness :
  exists p st, In p [para "Intro" (Some "Heading 1")] /\ p_style p = Some st
               /\ String.prefix "Heading" (style_name st) = true.
Proof.
  refine (proj1 (proj1 (word_strengths_follow_styles scenario_A
           {| doc_paragraphs := [para "Intro" (Some "Heading 1")] |}
           [S_headings] [W_short; W_conclusion] [A_short; A_conclusion]
           fixed_next_steps eq_refl _ eq_refl)) _).
  - exists (para "Intro" (Some "Heading 1")). split; [left; reflexivity|discriminate].
  - left. reflexivity.
Defined.

(** X13: the strengths of a spreadsheet or a slide deck never include the
    headings or the bullets strength: without style metadata the two Word
    checks are not run. *)
Theorem style_strengths_only_for_word
    (file : UploadedFile) (ext : string)
    (strengths weaknesses actions next_steps : list string) :
  ext = ".xlsx" \/ ext = ".pptx" ->
  run_swan_analysis file ext = Ok (strengths, weaknesses, actions, next_steps) ->
  ~ In S_headings strengths /\ ~ In S_bullets strengths.
Proof.
  intros Hext Hrun. apply run_outcomes in Hrun.
  destruct Hrun as [[_ H]|[[doc [_ H]]|[doc [ps [last [_ [_ H]]]]]]];
    injection H as -> _ _ _; try (split; intros []).
  assert (Hne : ext <> ".docx") by (destruct Hext; subst; discriminate).
  split; intros Hin; apply in_app_iff in Hin; destruct Hin as [Hin|Hin].
  - apply structure_strengths_In in Hin.
    unfold S_headings, S_sheets, S_slides in Hin. intuition discriminate.
  - destruct (truthy_list (find_short_paragraphs ps)); [destruct Hin|].
    destruct Hin as [Hin|[]]. discriminate Hin.
  - apply structure_strengths_In in Hin.
    unfold S_bullets, S_sheets, S_slides in Hin. intuition discriminate.
  - destruct (truthy_list (find_short_paragraphs ps)); [destruct Hin|].
    destruct Hin as [Hin|[]]. discriminate Hin.
Qed.

Lemma style_strengths_only_for_word_witness :
  ~ In S_headings [S_sheets] /\ ~ In S_bullets [S_sheets].
Proof.
  apply (style_strengths_only_for_word scenario_B ".xlsx"
           [S_sheets] [W_short] [A_short] fixed_next_steps).
  - left. reflexivity.
  - vm_compute. reflexivity.
Defined.

(** X14: a workbook with a sheet whose name has fewer than 253 characters is
    always reported with the short-section weakness first, and never with the
    enough-detail strength: the sheet's own marker block is a short block. *)
Theorem workbook_always_short
    (file : UploadedFile) (sheets : list Sheet) (sheet : Sheet) :
  as_xlsx file = Some sheets ->
  In sheet sheets ->
  String.length (sheet_name sheet) < 253 ->
  exists strengths more_w more_a,
    run_swan_analysis file ".xlsx"
    = Ok (strengths, W_short :: more_w, A_short :: more_a, fixed_next_steps)
    /\ ~ In S_detail strengths
    /\ In S_sheets strengths.
Proof.
  intros Hfile Hin Hlen.
  assert (Hex : extraction file ".xlsx" = Some (Ok (None, flat_map sheet_blocks sheets))).
  { unfold extraction. cbn [String.eqb Ascii.eqb Bool.eqb].
    unfold extract_text_from_xlsx, ExcelFile, opened. rewrite Hfile. cbn [bind].
    rewrite xlsx_blocks_flat. reflexivity. }
  assert (Hmark : In ("Sheet: " ++ sheet_name sheet)%string (flat_map sheet_blocks sheets)).
  { apply in_flat_map. exists sheet. split; [exact Hin|left; reflexivity]. }
  assert (Hne : flat_map sheet_blocks sheets <> []).
  { intros Heq. rewrite Heq in Hmark. exact Hmark. }
  destruct (index_last_ok Hne) as [last Hlast].
  assert (Hshort : truthy_list (find_short_paragraphs (flat_map sheet_blocks sheets)) = true).
  { apply truthy_list_In. exists ("Sheet: " ++ sheet_name sheet)%string.
    apply find_short_paragraphs_In. split; [exact Hmark|].
    rewrite str_length_app. unfold SHORT_PARAGRAPH_LIMIT. simpl String.length. lia. }
  rewrite (run_full file ".xlsx" None _ last Hex Hlast).
  unfold fired. rewrite Hshort. cbn [app map fst snd].
  do 3 eexists. split; [reflexivity|]. rewrite app_nil_r. split.
  - apply detail_not_structure.
  - unfold structure_strengths. cbn [existsb String.eqb Ascii.eqb Bool.eqb orb andb app].
    assert (Hs : existsb (fun p => Py.contains "sheet:" (Py.lower p))
                         (flat_map sheet_blocks sheets) = true).
    { apply existsb_exists. exists ("Sheet: " ++ sheet_name sheet)%string.
      split; [exact Hmark|apply sheet_marker_detected]. }
    rewrite Hs. left. reflexivity.
Qed.

Lemma workbook_always_short_witness :
  exists strengths more_w more_a,
    run_swan_analysis scenario_B ".xlsx"
    = Ok (strengths, W_short :: more_w, A_short :: more_a, fixed_next_steps)
    /\ ~ In S_detail strengths
    /\ In S_sheets strengths.
Proof.
  apply (workbook_always_short scenario_B
           [{| sheet_name := "Sheet1"; cell_values := [Py.repeat_char "x" 300] |}]
           {| sheet_name := "Sheet1"; cell_values := [Py.repeat_char "x" 300] |}).
  - reflexivity.
  - left. reflexivity.
  - vm_compute. repeat constructor.
Defined.

(** ** Repeated words: order, blocks and letter case *)

Lemma counter_incr_keys_eq (w : string) (counts : list (string * nat)) :
  map fst (counter_incr w counts)
  = if existsb (String.eqb w) (map fst counts)
    then map fst counts
    else map fst counts ++ [w].
Proof.
  induction counts as [|[k c] rest IH]; [reflexivity|].
  simpl. rewrite (String.eqb_sym w k).
  destruct (String.eqb k w); simpl; [reflexivity|].
  rewrite IH. destruct (existsb (String.eqb w) (map fst rest)); reflexivity.
Qed.

Lemma Counter_fold_keys (words : list string) :
  forall counts,
    map fst (fold_left (fun cs w => counter_incr w cs) words counts)
    = map fst counts ++ first_occurrences (map fst counts) words.
Proof.
  induction words as [|w words IH]; intros counts; simpl.
  - rewrite app_nil_r. reflexivity.
  - rewrite IH, counter_incr_keys_eq.
    destruct (existsb (String.eqb w) (map fst counts)); [reflexivity|].
    rewrite <- app_assoc. reflexivity.
Qed.

Lemma map_fst_filter (f : string * nat -> bool) (g : string -> bool)
    (l : list (string * nat)) :
  (forall kc, In kc l -> f kc = g (fst kc)) ->
  map fst (filter f l) = filter g (map fst l).
Proof.
  induction l as [|kc l IH]; intros Hfg; [reflexivity|].
  simpl. rewrite <- (Hfg kc (or_introl eq_refl)).
  destruct (f kc); simpl; rewrite IH; try reflexivity;
    intros x Hx; apply Hfg; right; exact Hx.
Qed.

(** X15: the repeated words come in the order in which they first occur in
    the text: the result is the list of distinct tokens, each at its first
    occurrence, cut down to those counted three times or more. *)
Theorem find_spelling_issues_in_text_order (paragraphs : list string) :
  let tokens := Re.findall (Py.lower (Py.join " " paragraphs)) in
  find_spelling_issues paragraphs
  = filter (fun w => 3 <=? count_occ string_dec tokens w)
           (first_occurrences [] tokens).
Proof.
  intros tokens. unfold find_spelling_issues. fold tokens.
  destruct (Counter_spec tokens) as [Hnd Hc].
  rewrite (map_fst_filter _ (fun w => 3 <=? count_occ string_dec tokens w)).
  - unfold Counter. rewrite Counter_fold_keys. reflexivity.
  - intros [k c] Hin. cbn [fst snd].
    rewrite <- Hc. rewrite (@In_count_of (Counter tokens) k c Hnd Hin). reflexivity.
Qed.

Lemma runs_split (cur a b : string) (c : ascii) :
  Re.is_word c = false ->
  runs Re.is_word cur (a ++ String c b)
  = runs Re.is_word cur a ++ runs Re.is_word EmptyString b.
Proof.
  intros Hc. revert cur. induction a as [|x a IH]; intros cur; simpl.
  - rewrite Hc. reflexivity.
  - destruct (Re.is_word x); [apply IH|].
    rewrite IH, app_assoc. reflexivity.
Qed.

Lemma letter_words_join (blocks : list string) :
  letter_words (Py.join " " blocks) = List.concat (map letter_words blocks).
Proof.
  induction blocks as [|x more IH]; [reflexivity|].
  destruct more as [|y more].
  - simpl. rewrite app_nil_r. reflexivity.
  - change (Py.join " " (x :: y :: more))
      with (x ++ String " " (Py.join " " (y :: more)))%string.
    unfold letter_words at 1. rewrite runs_split by reflexivity.
    rewrite filter_app. fold (letter_words x).
    fold (letter_words (Py.join " " (y :: more))). rewrite IH. reflexivity.
Qed.

Lemma lower_join (blocks : list string) :
  Py.lower (Py.join " " blocks) = Py.join " " (map Py.lower blocks).
Proof.
  induction blocks as [|x more IH]; [reflexivity|].
  destruct more as [|y more]; [reflexivity|].
  change (Py.join " " (x :: y :: more))
    with (x ++ String " " (Py.join " " (y :: more)))%string.
  rewrite lower_app. cbn [Py.lower]. rewrite IH. reflexivity.
Qed.

Lemma findall_blocks (paragraphs : list string) :
  Re.findall (Py.lower (Py.join " " paragraphs))
  = List.concat (map (fun p => Re.findall (Py.lower p)) paragraphs).
Proof.
  rewrite findall_letter_words, lower_join, letter_words_join, map_map.
  f_equal. apply map_ext. intros p. symmetry. apply findall_letter_words.
Qed.

Lemma count_occ_concat (w : string) (ls : list (list string)) :
  count_occ string_dec (List.concat ls) w
  = list_sum (map (fun l => count_occ string_dec l w) ls).
Proof.
  induction ls as [|l ls IH]; [reflexivity|].
  simpl. rewrite count_occ_app, IH. reflexivity.
Qed.

Lemma find_spelling_issues_block_sum (paragraphs : list string) (w : string) :
  In w (find_spelling_issues paragraphs)
  <-> 3 <= list_sum (map (fun p => count_occ string_dec (Re.findall (Py.lower p)) w)
                         paragraphs).
Proof.
  rewrite find_spelling_issues_count, findall_blocks.
  rewrite count_occ_concat, map_map. reflexivity.
Qed.

(** X16: no token spans two blocks: the tokens of the document are the tokens
    of its blocks, one block after the other, so a word is reported exactly
    when its counts in the single blocks add up to three or more. *)
Theorem words_counted_block_by_block (paragraphs : list string) :
  Re.findall (Py.lower (Py.join " " paragraphs))
  = List.concat (map (fun p => Re.findall (Py.lower p)) paragraphs)
  /\ forall w,
       In w (find_spelling_issues paragraphs)
       <-> 3 <= list_sum (map (fun p => count_occ string_dec (Re.findall (Py.lower p)) w)
                              paragraphs).
Proof.
  split; [apply findall_blocks|].
  intros w. apply find_spelling_issues_block_sum.
Qed.

Lemma words_counted_block_by_block_witness :
  In "the" (find_spelling_issues ["the cat"; "The dog"; "THE END"]).
Proof.
  apply (proj2 (words_counted_block_by_block ["the cat"; "The dog"; "THE END"])).
  vm_compute. apply le_n.
Defined.

Lemma block_counts_permutation (f : string -> nat) (ps qs : list string) :
  Permutation.Permutation ps qs -> list_sum (map f ps) = list_sum (map f qs).
Proof.
  induction 1 as [|x l l' _ IH|x y l|l l' l'' _ IH1 _ IH2]; simpl; lia.
Qed.

(** X17: which words are reported does not depend on the order of the
    blocks. *)
Theorem repeated_words_ignore_block_order (ps qs : list string) :
  Permutation.Permutation ps qs ->
  forall w, In w (find_spelling_issues ps) <-> In w (find_spelling_issues qs).
Proof.
  intros Hperm w.
  rewrite !find_spelling_issues_block_sum.
  rewrite (block_counts_permutation _ ps qs Hperm). reflexivity.
Qed.

Lemma repeated_words_ignore_block_order_witness :
  In "the" (find_spelling_issues ["the dog the end"; "the cat"]).
Proof.
  apply (proj1 (repeated_words_ignore_block_order
                  ["the cat"; "the dog the end"] ["the dog the end"; "the cat"]
                  (Permutation.perm_swap _ _ _) "the")).
  vm_compute. left. reflexivity.
Defined.

(** X18: more text never clears a repeated word: a word reported for some
    blocks is still reported when blocks are added before or after them. *)
Theorem repeated_words_grow (before ps after : list string) (w : string) :
  In w (find_spelling_issues ps) ->
  In w (find_spelling_issues (before ++ ps ++ after)).
Proof.
  rewrite !find_spelling_issues_block_sum.
  rewrite !map_app, !list_sum_app. lia.
Qed.

Lemma repeated_words_grow_witness :
  In "the" (find_spelling_issues (["Title"] ++ ["the cat, the dog, the end"] ++ ["Bye"])).
Proof.
  apply (repeated_words_grow ["Title"] ["the cat, the dog, the end"] ["Bye"] "the").
  vm_compute. left. reflexivity.
Defined.

Lemma lower_char_idem (c : ascii) : Py.lower_char (Py.lower_char c) = Py.lower_char c.
Proof.
  destruct c as [b0 b1 b2 b3 b4 b5 b6 b7].
  destruct b0, b1, b2, b3, b4, b5, b6, b7; vm_compute; reflexivity.
Qed.

Lemma lower_idem (s : string) : Py.lower (Py.lower s) = Py.lower s.
Proof.
  induction s as [|c s IH]; simpl; [reflexivity|].
  rewrite lower_char_idem, IH. reflexivity.
Qed.

Lemma reported_word_lower_letters (paragraphs : list string) (w : string) :
  In w (find_spelling_issues paragraphs) -> all_chars is_lower_letter w = true.
Proof.
  intros Hin. apply find_spelling_issues_count in Hin.
  set (text := Py.lower (Py.join " " paragraphs)) in *.
  pose proof (scan_occurrences w text 0 None) as Hle. fold (Re.findall text) in Hle.
  assert (Htok : In w (letter_words text)).
  { rewrite <- findall_letter_words. apply (count_occ_In string_dec). lia. }
  unfold letter_words in Htok. apply filter_In in Htok. destruct Htok as [_ Hgood].
  unfold good_word in Hgood. apply andb_true_iff in Hgood.
  destruct Hgood as [_ Hletters].
  apply lower_letters; [exact Hletters|].
  apply (@occurrences_chars _ w text); [lia|apply lower_no_upper].
Qed.

(** X19: letter case is ignored: two documents whose blocks differ only in
    the case of their letters get the same repeated words, and every
    reported word is its own lower-case form. *)
Theorem repeated_words_ignore_case (ps qs : list string) :
  map Py.lower ps = map Py.lower qs ->
  find_spelling_issues ps = find_spelling_issues qs
  /\ forall w, In w (find_spelling_issues ps) -> Py.lower w = w.
Proof.
  intros Hcase. split.
  - unfold find_spelling_issues. rewrite !lower_join, Hcase. reflexivity.
  - intros w Hin.
    pose proof (reported_word_lower_letters ps w Hin) as Hlow.
    clear - Hlow. induction w as [|c w IH]; [reflexivity|].
    simpl in Hlow. apply andb_true_iff in Hlow. destruct Hlow as [Hc Hw].
    simpl. rewrite (IH Hw). f_equal.
    unfold Py.lower_char. unfold is_lower_letter in Hc.
    revert Hc. destruct c as [b0 b1 b2 b3 b4 b5 b6 b7].
    destruct b0, b1, b2, b3, b4, b5, b6, b7; vm_compute; congruence.
Qed.

Lemma repeated_words_ignore_case_witness :
  find_spelling_issues ["THE cat"; "The Dog, tHe end"]
  = find_spelling_issues ["the cat"; "the dog, the end"].
Proof.
  apply (repeated_words_ignore_case
           ["THE cat"; "The Dog, tHe end"] ["the cat"; "the dog, the end"]).
  vm_compute. reflexivity.
Defined.

(** ** The Word-only script *)

Section WordScript.

Import SwanApp.

Lemma count_headings_from_spec (ps : list Paragraph) (total : nat) :
  count_headings_from ps total
  = if forallb styled ps
    then Done (total + List.length (filter has_heading_style ps))
    else Fault AttributeError.
Proof.
  revert total. induction ps as [|p more IH]; intros total; simpl.
  - rewrite Nat.add_0_r. reflexivity.
  - unfold styled at 1, has_heading_style at 1.
    destruct (p_style p) as [st|]; [|reflexivity]. cbn [andb].
    destruct (Py.startswith (style_name st) "Heading"); rewrite IH;
      destruct (forallb styled more); try reflexivity.
    simpl. rewrite Nat.add_succ_r. reflexivity.
Qed.

Lemma any_list_style_spec (ps : list Paragraph) :
  forallb styled ps = true ->
  any_list_style ps = Done (existsb has_list_style ps).
Proof.
  induction ps as [|p more IH]; simpl; [reflexivity|].
  unfold styled at 1, has_list_style at 1.
  destruct (p_style p) as [st|]; [|discriminate]. cbn [andb]. intros Hall.
  destruct (Py.contains "List" (style_name st)); [reflexivity|].
  apply IH, Hall.
Qed.

Lemma count_headings_docx_filter (d : Docx) :
  count_headings_docx (Some d) = List.length (filter has_heading_style (doc_paragraphs d)).
Proof. reflexivity. Qed.

Lemma has_bullets_docx_existsb (d : Docx) :
  has_bullets_docx (Some d) = existsb has_list_style (doc_paragraphs d).
Proof.
  unfold has_bullets_docx. induction (doc_paragraphs d) as [|p more IH]; [reflexivity|].
  simpl. rewrite IH. f_equal.
  unfold has_list_style. destruct (p_style p); reflexivity.
Qed.

Lemma last_default (x d d' : string) (l : list string) :
  List.last (x :: l) d = List.last (x :: l) d'.
Proof.
  revert x. induction l as [|y l IH]; intros x; [reflexivity|].
  change (List.last (y :: l) d = List.last (y :: l) d'). apply IH.
Qed.

Lemma last_index_last (p : string) (more : list string) :
  index_last (p :: more) = Ok (List.last more p).
Proof.
  revert p. induction more as [|q more IH]; intros p; [reflexivity|].
  change (index_last (p :: q :: more)) with (index_last (q :: more)).
  rewrite IH. f_equal. destruct more as [|r more]; [reflexivity|].
  change (List.last (q :: r :: more) p) with (List.last (r :: more) p).
  apply last_default.
Qed.

(** The three ways the script's computation ends on a file the library
    reads. *)
Lemma assess_spec (file : UploadedFile) (d : Docx) :
  as_docx file = Some d ->
  assess file
  = if negb (forallb styled (doc_paragraphs d)) then Fault AttributeError
    else match extract_text d with
         | [] => Fault IndexFault
         | p :: more =>
             Done ((if 1 <=? count_headings_docx (Some d) then [S_headings] else [])
                   ++ (if has_bullets_docx (Some d) then [S_bullets] else [])
                   ++ (if truthy_list (find_short_paragraphs (p :: more))
                       then [] else [S_app_detail]),
                   map fst (app_fired (p :: more) (List.last more p)),
                   map snd (app_fired (p :: more) (List.last more p)))
         end.
Proof.
  intros Hd. unfold assess. rewrite Hd. cbn [and_then].
  unfold count_headings. rewrite count_headings_from_spec.
  destruct (forallb styled (doc_paragraphs d)) eqn:Hall; [|reflexivity].
  cbn [and_then negb]. unfold has_bullets. rewrite (any_list_style_spec _ Hall).
  cbn [and_then]. rewrite count_headings_docx_filter, has_bullets_docx_existsb.
  cbn [Nat.add].
  destruct (extract_text d) as [|p more]; [|cbn [and_then]; unfold app_fired].
  - destruct (1 <=? List.length (filter has_heading_style (doc_paragraphs d)));
      destruct (existsb has_list_style (doc_paragraphs d)); reflexivity.
  - destruct (1 <=? List.length (filter has_heading_style (doc_paragraphs d)));
      destruct (existsb has_list_style (doc_paragraphs d));
      destruct (truthy_list (find_short_paragraphs (p :: more)));
      destruct (String.length (List.last more p) <? SHORT_PARAGRAPH_LIMIT);
      destruct (truthy_list (find_spelling_issues (p :: more)));
      reflexivity.
Qed.

Lemma extract_text_empty (d : Docx) :
  extract_text d = []
  <-> Forall (fun p => Py.strip (p_text p) = EmptyString) (doc_paragraphs d).
Proof.
  unfold extract_text. induction (doc_paragraphs d) as [|p more IH]; simpl.
  - split; [constructor|reflexivity].
  - destruct (Py.strip (p_text p)) eqn:Hs; simpl.
    + rewrite IH. split; [intros H; constructor; assumption|].
      intros H. inversion H; assumption.
    + split; [discriminate|]. intros H. inversion H; congruence.
Qed.

Lemma unstyled_exists (ps : list Paragraph) :
  forallb styled ps = false <-> exists p, In p ps /\ p_style p = None.
Proof.
  split.
  - intros H. induction ps as [|p more IH]; [discriminate|].
    simpl in H. apply andb_false_iff in H. destruct H as [H|H].
    + exists p. split; [left; reflexivity|].
      unfold styled in H. destruct (p_style p); [discriminate|reflexivity].
    + destruct (IH H) as [q [Hq Hs]]. exists q. split; [right; exact Hq|exact Hs].
  - intros [p [Hp Hs]].
    destruct (forallb styled ps) eqn:Hall; [|reflexivity].
    rewrite forallb_forall in Hall. specialize (Hall p Hp).
    unfold styled in Hall. rewrite Hs in Hall. discriminate.
Qed.

End WordScript.

(** X20: the Word-only script ends in a fault in exactly three cases: the
    library cannot read the file; or some paragraph has no style (the style
    name is read without a check); or every paragraph has a style and all of
    them are blank, the last-block access then failing on an empty list. *)
Theorem script_faults (file : UploadedFile) :
  (SwanApp.assess file = SwanApp.Fault SwanApp.LibraryError <-> as_docx file = None)
  /\ (forall d, as_docx file = Some d ->
        (SwanApp.assess file = SwanApp.Fault SwanApp.AttributeError
         <-> exists p, In p (doc_paragraphs d) /\ p_style p = None)
        /\ (SwanApp.assess file = SwanApp.Fault SwanApp.IndexFault
            <-> (forall p, In p (doc_paragraphs d) -> p_style p <> None)
                /\ Forall (fun p => Py.strip (p_text p) = EmptyString)
                          (doc_paragraphs d))).
Proof.
  split.
  - destruct (as_docx file) as [d|] eqn:Hd.
    + rewrite (assess_spec file d Hd). split; [|discriminate].
      destruct (forallb styled (doc_paragraphs d)); cbn [negb]; [|discriminate].
      destruct (SwanApp.extract_text d); discriminate.
    + unfold SwanApp.assess. rewrite Hd. split; reflexivity.
  - intros d Hd. rewrite (assess_spec file d Hd).
    rewrite <- unstyled_exists, <- extract_text_empty.
    destruct (forallb styled (doc_paragraphs d)) eqn:Hall; cbn [negb].
    + assert (Hst : forall p, In p (doc_paragraphs d) -> p_style p <> None).
      { intros p Hp Hnone. rewrite forallb_forall in Hall. specialize (Hall p Hp).
        unfold styled in Hall. rewrite Hnone in Hall. discriminate. }
      destruct (SwanApp.extract_text d) as [|p more]; split; split;
        try discriminate; try reflexivity; try (intros [_ H]; discriminate H).
      intros _. split; [exact Hst|reflexivity].
    + split; split; try discriminate; try reflexivity.
      intros [Hst _]. exfalso.
      apply unstyled_exists in Hall. destruct Hall as [p [Hp Hnone]].
      apply (Hst p Hp Hnone).
Qed.

Lemma script_faults_witness :
  SwanApp.assess (docx_file [para "   " (Some "Normal")])
  = SwanApp.Fault SwanApp.IndexFault.
Proof.
  apply (proj2 (proj2 (script_faults (docx_file [para "   " (Some "Normal")]))
                      {| doc_paragraphs := [para "   " (Some "Normal")] |} eq_refl)).
  split.
  - intros p [<-|[]]. discriminate.
  - repeat constructor.
Defined.

(** X21: where the Word-only script faults on a file the library reads, the
    dispatcher of [swan_2.py] returns a report for the same file, and it is
    the empty-content report when the script's fault is the failed last-block
    access. *)
Theorem dispatcher_covers_script_faults (file : UploadedFile) (f : SwanApp.fault) :
  SwanApp.assess file = SwanApp.Fault f ->
  f <> SwanApp.LibraryError ->
  exists report,
    run_swan_analysis file ".docx" = Ok report
    /\ (f = SwanApp.IndexFault -> report = ([], [W_empty], [], [])).
Proof.
  intros Hf Hlib.
  destruct (as_docx file) as [d|] eqn:Hd.
  - assert (Hex : extraction file ".docx" = Some (Ok (Some d, SwanApp.extract_text d))).
    { unfold extraction. cbn [String.eqb Ascii.eqb Bool.eqb].
      unfold extract_text_from_docx, Document, opened. rewrite Hd. reflexivity. }
    rewrite (assess_spec file d Hd) in Hf.
    destruct (SwanApp.extract_text d) as [|p more] eqn:Hps.
    + exists ([], [W_empty], [], []). split; [|reflexivity].
      rewrite run_swan_analysis_steps, Hex. reflexivity.
    + rewrite (run_full file ".docx" (Some d) (p :: more) (List.last more p) Hex
                        (last_index_last p more)).
      eexists. split; [reflexivity|].
      intros ->. destruct (forallb styled (doc_paragraphs d)); discriminate Hf.
  - exfalso. apply Hlib. unfold SwanApp.assess in Hf. rewrite Hd in Hf.
    cbn [SwanApp.and_then] in Hf. congruence.
Qed.

Lemma dispatcher_covers_script_faults_witness :
  exists report,
    run_swan_analysis (docx_file [para "Intro" None]) ".docx" = Ok report
    /\ (SwanApp.AttributeError = SwanApp.IndexFault -> report = ([], [W_empty], [], [])).
Proof.
  apply (dispatcher_covers_script_faults (docx_file [para "Intro" None])
                                         SwanApp.AttributeError).
  - vm_compute. reflexivity.
  - discriminate.
Defined.

Lemma app_fired_length (ps : list string) (last : string) :
  List.length (app_fired ps last) = List.length (fired ps last)
  /\ List.length (app_fired ps last) <= 3.
Proof.
  unfold app_fired, fired.
  destruct (truthy_list (find_short_paragraphs ps));
    destruct (String.length last <? SHORT_PARAGRAPH_LIMIT);
    destruct (truthy_list (find_spelling_issues ps)); cbn; lia.
Qed.

Lemma app_fired_weaknesses (ps : list string) (last : string) :
  (In SwanApp.W_app_short (map fst (app_fired ps last))
   <-> truthy_list (find_short_paragraphs ps) = true)
  /\ (In SwanApp.W_app_conclusion (map fst (app_fired ps last))
      <-> (String.length last <? SHORT_PARAGRAPH_LIMIT) = true)
  /\ (In SwanApp.W_app_repeat (map fst (app_fired ps last))
      <-> truthy_list (find_spelling_issues ps) = true).
Proof.
  unfold app_fired.
  destruct (truthy_list (find_short_paragraphs ps));
    destruct (String.length last <? SHORT_PARAGRAPH_LIMIT);
    destruct (truthy_list (find_spelling_issues ps));
    cbn [app map fst In];
    unfold SwanApp.W_app_short, SwanApp.W_app_conclusion, SwanApp.W_app_repeat;
    intuition congruence.
Qed.

Lemma app_actions_prefixed (ps : list string) (last : string) :
  Forall (fun e => String.prefix "Action:" e = true) (map snd (app_fired ps last)).
Proof.
  unfold app_fired.
  destruct (truthy_list (find_short_paragraphs ps));
    destruct (String.length last <? SHORT_PARAGRAPH_LIMIT);
    destruct (truthy_list (find_spelling_issues ps));
    cbn [app map snd]; repeat constructor.
Qed.

(** X22: when the Word-only script completes, the dispatcher of [swan_2.py]
    analyses the same file as a .docx and reaches the same findings: the same
    three checks fire (under each script's own wording), the same structure
    strengths are given, and both have as many weaknesses as actions. *)
Theorem script_and_dispatcher_agree
    (file : UploadedFile) (strengths weaknesses actions : list string) :
  SwanApp.assess file = SwanApp.Done (strengths, weaknesses, actions) ->
  exists strengths2 weaknesses2 actions2,
    run_swan_analysis file ".docx"
    = Ok (strengths2, weaknesses2, actions2, fixed_next_steps)
    /\ (In SwanApp.W_app_short weaknesses <-> In W_short weaknesses2)
    /\ (In SwanApp.W_app_conclusion weaknesses <-> In W_conclusion weaknesses2)
    /\ (In SwanApp.W_app_repeat weaknesses <-> In W_repeat weaknesses2)
    /\ (In S_headings strengths <-> In S_headings strengths2)
    /\ (In S_bullets strengths <-> In S_bullets strengths2)
    /\ (In S_app_detail strengths <-> In S_detail strengths2)
    /\ List.length weaknesses = List.length weaknesses2
    /\ List.length actions = List.length weaknesses.
Proof.
  intros Hdone.
  destruct (as_docx file) as [d|] eqn:Hd;
    [|unfold SwanApp.assess in Hdone; rewrite Hd in Hdone; discriminate Hdone].
  rewrite (assess_spec file d Hd) in Hdone.
  destruct (forallb styled (doc_paragraphs d)); [|discriminate Hdone].
  cbn [negb] in Hdone.
  assert (Hex : extraction file ".docx" = Some (Ok (Some d, SwanApp.extract_text d))).
  { unfold extraction. cbn [String.eqb Ascii.eqb Bool.eqb].
    unfold extract_text_from_docx, Document, opened. rewrite Hd. reflexivity. }
  destruct (SwanApp.extract_text d) as [|p more]; [discriminate Hdone|].
  rewrite (run_full file ".docx" (Some d) (p :: more) (List.last more p) Hex
                    (last_index_last p more)).
  unfold structure_strengths.
  cbn [existsb String.eqb Ascii.eqb Bool.eqb orb andb]. rewrite app_nil_r.
  remember (1 <=? count_headings_docx (Some d)) as heading eqn:Hh.
  remember (has_bullets_docx (Some d)) as bullets eqn:Hb.
  remember (truthy_list (find_short_paragraphs (p :: more))) as short eqn:Hshort.
  clear Hh Hb.
  injection Hdone as <- <- <-.
  do 3 eexists. split; [reflexivity|].
  destruct (fired_weaknesses (p :: more) (List.last more p)) as [H1 [H2 H3]].
  destruct (app_fired_weaknesses (p :: more) (List.last more p)) as [G1 [G2 G3]].
  destruct (app_fired_length (p :: more) (List.last more p)) as [Hlen _].
  split; [rewrite H1, G1; reflexivity|].
  split; [rewrite H2, G2; reflexivity|].
  split; [rewrite H3, G3; reflexivity|].
  rewrite !length_map.
  split; [|split; [|split; [|split; [exact Hlen|reflexivity]]]];
    destruct heading; destruct bullets; destruct short;
    cbn [app In];
    unfold S_headings, S_bullets, S_app_detail, S_detail;
    intuition congruence.
Qed.

Lemma script_and_dispatcher_agree_witness :
  exists strengths2 weaknesses2 actions2,
    run_swan_analysis scenario_A ".docx"
    = Ok (strengths2, weaknesses2, actions2, fixed_next_steps)
    /\ (In SwanApp.W_app_short [SwanApp.W_app_short; SwanApp.W_app_conclusion]
        <-> In W_short weaknesses2)
    /\ (In SwanApp.W_app_conclusion [SwanApp.W_app_short; SwanApp.W_app_conclusion]
        <-> In W_conclusion weaknesses2)
    /\ (In SwanApp.W_app_repeat [SwanApp.W_app_short; SwanApp.W_app_conclusion]
        <-> In W_repeat weaknesses2)
    /\ (In S_headings [S_headings] <-> In S_headings strengths2)
    /\ (In S_bullets [S_headings] <-> In S_bullets strengths2)
    /\ (In S_app_detail [S_headings] <-> In S_detail strengths2)
    /\ List.length [SwanApp.W_app_short; SwanApp.W_app_conclusion]
       = List.length weaknesses2
    /\ List.length [SwanApp.A_app_short; SwanApp.A_app_conclusion]
       = List.length [SwanApp.W_app_short; SwanApp.W_app_conclusion].
Proof.
  apply (script_and_dispatcher_agree scenario_A).
  vm_compute. reflexivity.
Defined.

(** X23: when the Word-only script completes, its page shows every strength
    and every weakness (the cut after three entries never drops one), and
    what it shows under "Next Steps" are the actions, each starting with
    "Action:". *)
Theorem script_page_shows_everything (file : UploadedFile) (shown : list ui) :
  SwanApp.main file = SwanApp.Done shown ->
  exists strengths weaknesses actions,
    SwanApp.assess file = SwanApp.Done (strengths, weaknesses, actions)
    /\ shown = (st_subheader "Strengths" :: map st_bullet strengths)
               ++ (st_subheader "Weaknesses" :: map st_bullet weaknesses)
               ++ (st_subheader "Next Steps" :: map st_bullet actions)
    /\ Forall (fun e => String.prefix "Action:" e = true) actions.
Proof.
  unfold SwanApp.main.
  destruct (SwanApp.assess file) as [[[s w] a]|f] eqn:Hassess; [|discriminate].
  cbn [SwanApp.and_then]. intros [= <-]. exists s, w, a.
  split; [reflexivity|].
  destruct (as_docx file) as [d|] eqn:Hd;
    [|unfold SwanApp.assess in Hassess; rewrite Hd in Hassess; discriminate Hassess].
  rewrite (assess_spec file d Hd) in Hassess.
  destruct (forallb styled (doc_paragraphs d)); [|discriminate Hassess].
  cbn [negb] in Hassess.
  destruct (SwanApp.extract_text d) as [|p more]; [discriminate Hassess|].
  remember (1 <=? count_headings_docx (Some d)) as heading eqn:Hh.
  remember (has_bullets_docx (Some d)) as bullets eqn:Hb.
  remember (truthy_list (find_short_paragraphs (p :: more))) as short eqn:Hshort.
  remember (app_fired (p :: more) (List.last more p)) as pairs eqn:Hpairs.
  assert (Hlen : List.length pairs <= 3)
    by (rewrite Hpairs; apply app_fired_length).
  assert (Hact : Forall (fun e => String.prefix "Action:" e = true) (map snd pairs))
    by (rewrite Hpairs; apply app_actions_prefixed).
  clear Hh Hb Hshort Hpairs.
  injection Hassess as <- <- <-.
  split; [|exact Hact].
  unfold SwanApp.show.
  rewrite !firstn_all2; [reflexivity| | |]; rewrite ?length_map; try exact Hlen.
  destruct heading; destruct bullets; destruct short; cbn; lia.
Qed.

Lemma script_page_shows_everything_witness :
  exists strengths weaknesses actions,
    SwanApp.assess scenario_A = SwanApp.Done (strengths, weaknesses, actions)
    /\ [st_subheader "Strengths"; st_bullet S_headings;
        st_subheader "Weaknesses"; st_bullet SwanApp.W_app_short;
        st_bullet SwanApp.W_app_conclusion;
        st_subheader "Next Steps"; st_bullet SwanApp.A_app_short;
        st_bullet SwanApp.A_app_conclusion]
       = (st_subheader "Strengths" :: map st_bullet strengths)
         ++ (st_subheader "Weaknesses" :: map st_bullet weaknesses)
         ++ (st_subheader "Next Steps" :: map st_bullet actions)
    /\ Forall (fun e => String.prefix "Action:" e = true) actions.
Proof.
  apply (script_page_shows_everything scenario_A).
  vm_compute. reflexivity.
Defined.

(** ** Slide decks *)

Lemma slide_text_of_empty (shp : list Shape) :
  slide_text_of shp [] = []
  <-> forall sh t, In sh shp -> shape_text sh = Some t -> Py.strip t = EmptyString.
Proof.
  rewrite slide_text_of_spec. cbn [app]. split.
  - intros Hnil sh t Hsh Ht.
    destruct (Py.strip t) eqn:Hs; [reflexivity|]. exfalso.
    assert (Hin : In t (filter (fun t => Py.truthy (Py.strip t))
                               (flat_map (fun sh => match shape_text sh with
                                                    | Some t => [t]
                                                    | None => []
                                                    end) shp))).
    { apply filter_In. split; [|rewrite Hs; reflexivity].
      apply in_flat_map. exists sh. split; [exact Hsh|].
      rewrite Ht. left. reflexivity. }
    destruct (filter _ _); [exact Hin|discriminate Hnil].
  - intros Hall.
    assert (Hf : filter (fun t => Py.truthy (Py.strip t))
                        (flat_map (fun sh => match shape_text sh with
                                             | Some t => [t]
                                             | None => []
                                             end) shp) = []).
    { induction shp as [|sh more IH]; [reflexivity|].
      cbn [flat_map]. rewrite filter_app, IH.
      - rewrite app_nil_r. destruct (shape_text sh) as [t|] eqn:Ht; [|reflexivity].
        cbn [filter]. rewrite (Hall sh t (or_introl eq_refl) Ht). reflexivity.
      - intros sh' t Hin. apply Hall. right. exact Hin. }
    rewrite Hf. reflexivity.
Qed.

Lemma deck_blocks_empty (slides : list Slide) (idx : nat) :
  deck_blocks idx slides = []
  <-> forall slide, In slide slides -> slide_text_of (shapes slide) [] = [].
Proof.
  revert idx. induction slides as [|sl more IH]; intros idx; simpl.
  - split; [intros _ slide []|reflexivity].
  - unfold slide_blocks.
    destruct (slide_text_of (shapes sl) []) as [|t ts] eqn:Hsl; cbn [app].
    + rewrite IH. split.
      * intros H slide [<-|Hin]; [exact Hsl|apply H, Hin].
      * intros H slide Hin. apply H. right. exact Hin.
    + split; [discriminate|]. intros H.
      specialize (H sl (or_introl eq_refl)). congruence.
Qed.

(** X24: a slide deck gets the empty-content report exactly when no shape on
    any slide has text that is not blank. *)
Theorem deck_without_text_is_empty (file : UploadedFile) (slides : list Slide) :
  as_pptx file = Some slides ->
  (run_swan_analysis file ".pptx" = Ok ([], [W_empty], [], [])
   <-> forall slide sh t,
         In slide slides -> In sh (shapes slide) -> shape_text sh = Some t ->
         Py.strip t = EmptyString).
Proof.
  intros Hfile.
  assert (Hex : extraction file ".pptx" = Some (Ok (None, deck_blocks 1 slides))).
  { unfold extraction. cbn [String.eqb Ascii.eqb Bool.eqb].
    unfold extract_text_from_pptx, Presentation, opened. rewrite Hfile. cbn [bind].
    rewrite pptx_blocks_deck. reflexivity. }
  assert (Hblank : deck_blocks 1 slides = []
                   <-> forall slide sh t,
                         In slide slides -> In sh (shapes slide) ->
                         shape_text sh = Some t -> Py.strip t = EmptyString).
  { rewrite deck_blocks_empty. split.
    - intros H slide sh t Hsl. apply slide_text_of_empty, H, Hsl.
    - intros H slide Hsl. apply slide_text_of_empty. intros sh t. apply H, Hsl. }
  rewrite <- Hblank. rewrite run_swan_analysis_steps, Hex. cbn [bind].
  destruct (deck_blocks 1 slides) as [|b more] eqn:Hblocks.
  - split; reflexivity.
  - split; [|discriminate].
    destruct (@index_last_ok _ (b :: more)) as [last Hlast]; [discriminate|].
    rewrite (analyse_full ".pptx" None (b :: more) last Hlast).
    unfold fixed_next_steps. discriminate.
Qed.

Lemma deck_without_text_is_empty_witness :
  run_swan_analysis
    (pptx_file [{| shapes := [{| shape_text := Some "  " |}; {| shape_text := None |}] |}])
    ".pptx"
  = Ok ([], [W_empty], [], []).
Proof.
  apply (proj2 (deck_without_text_is_empty
                  (pptx_file [{| shapes := [{| shape_text := Some "  " |};
                                            {| shape_text := None |}] |}])
                  [{| shapes := [{| shape_text := Some "  " |};
                                 {| shape_text := None |}] |}]
                  eq_refl)).
  intros slide sh t [<-|[]] [<-|[<-|[]]]; cbn [shape_text]; intros [= <-]; reflexivity.
Defined.

Section Digits.

Import DecimalNat.Unsigned.

Lemma string_of_uint_length (d : Decimal.uint) :
  String.length (NilEmpty.string_of_uint d) = Decimal.nb_digits d.
Proof. induction d; simpl; congruence. Qed.

Lemma to_lu_low_digit (r q : nat) :
  r < 10 -> q <> 0 ->
  Decimal.nb_digits (to_lu (r + 10 * q)) = S (Decimal.nb_digits (to_lu q)).
Proof.
  intros Hr Hq. remember (10 * q) as m eqn:Hm.
  assert (Hten : to_lu m = Decimal.D0 (to_lu q)).
  { rewrite Hm. apply to_lu_tenfold, Hq. }
  do 10 (destruct r as [|r];
         [cbn [Nat.add to_lu]; rewrite Hten; reflexivity|]).
  lia.
Qed.

Lemma to_lu_digits (k : nat) :
  forall n, n < 10 ^ S k -> Decimal.nb_digits (to_lu n) <= S k.
Proof.
  induction k as [|k IH]; intros n Hn.
  - change (10 ^ 1) with 10 in Hn.
    do 10 (destruct n as [|n]; [simpl; lia|]). lia.
  - destruct (Nat.lt_ge_cases n 10) as [Hsmall|Hbig].
    + assert (H1 : Decimal.nb_digits (to_lu n) <= 1).
      { clear - Hsmall. do 10 (destruct n as [|n]; [simpl; lia|]). lia. }
      lia.
    + pose proof (Nat.div_mod_eq n 10) as Hdm.
      assert (Hr : n mod 10 < 10) by (apply Nat.mod_upper_bound; discriminate).
      assert (Hq : n / 10 <> 0).
      { intros H0. rewrite H0 in Hdm. lia. }
      assert (Hlt : n / 10 < 10 ^ S k).
      { apply Nat.Div0.div_lt_upper_bound.
        change (10 ^ S (S k)) with (10 * 10 ^ S k) in Hn. exact Hn. }
      rewrite Hdm, (Nat.add_comm (10 * (n / 10))).
      rewrite (to_lu_low_digit _ _ Hr Hq).
      specialize (IH _ Hlt). lia.
Qed.

Lemma str_of_nat_length (k n : nat) :
  n < 10 ^ S k -> String.length (Py.str_of_nat n) <= S k.
Proof.
  intros Hn. unfold Py.str_of_nat.
  rewrite string_of_uint_length, to_uint_alt, DecimalFacts.nb_digits_rev.
  apply to_lu_digits, Hn.
Qed.

End Digits.

Lemma deck_blocks_first (slides : list Slide) (idx : nat) :
  deck_blocks idx slides <> [] ->
  exists n rest,
    deck_blocks idx slides = ("Slide " ++ Py.str_of_nat n ++ ":")%string :: rest
    /\ n < idx + List.length slides.
Proof.
  revert idx. induction slides as [|sl more IH]; intros idx; simpl; [congruence|].
  unfold slide_blocks.
  destruct (slide_text_of (shapes sl) []) as [|t ts]; cbn [app].
  - intros Hne. destruct (IH (S idx) Hne) as [n [rest [Heq Hn]]].
    exists n, rest. split; [exact Heq|lia].
  - intros _. exists idx. eexists. split; [reflexivity|lia].
Qed.

(** X25: a slide deck (of fewer than 10^252 slides) with any text is always
    reported with the short-section weakness first and the slides strength,
    and never with the enough-detail strength: the first block is a
    "Slide <n>:" marker, which is a short block. *)
Theorem deck_always_short (file : UploadedFile) (slides : list Slide) :
  as_pptx file = Some slides ->
  List.length slides < 10 ^ 252 ->
  pptx_blocks slides 1 [] <> [] ->
  exists strengths more_w more_a,
    run_swan_analysis file ".pptx"
    = Ok (strengths, W_short :: more_w, A_short :: more_a, fixed_next_steps)
    /\ ~ In S_detail strengths
    /\ In S_slides strengths.
Proof.
  intros Hfile Hsize Hne. rewrite pptx_blocks_deck in Hne.
  assert (Hex : extraction file ".pptx" = Some (Ok (None, deck_blocks 1 slides))).
  { unfold extraction. cbn [String.eqb Ascii.eqb Bool.eqb].
    unfold extract_text_from_pptx, Presentation, opened. rewrite Hfile. cbn [bind].
    rewrite pptx_blocks_deck. reflexivity. }
  destruct (deck_blocks_first slides 1 Hne) as [n [rest [Heq Hn]]].
  destruct (index_last_ok Hne) as [last Hlast].
  assert (Hlen : String.length ("Slide " ++ Py.str_of_nat n ++ ":") < SHORT_PARAGRAPH_LIMIT).
  { rewrite !str_length_app.
    assert (Hd : String.length (Py.str_of_nat n) <= 252).
    { apply str_of_nat_length.
      apply Nat.le_lt_trans with (List.length slides); [lia|exact Hsize]. }
    unfold SHORT_PARAGRAPH_LIMIT.
    change (String.length "Slide ") with 6. change (String.length ":") with 1.
    clear - Hd. lia. }
  assert (Hshort : truthy_list (find_short_paragraphs (deck_blocks 1 slides)) = true).
  { apply truthy_list_In. exists ("Slide " ++ Py.str_of_nat n ++ ":")%string.
    apply find_short_paragraphs_In. split; [rewrite Heq; left; reflexivity|exact Hlen]. }
  rewrite (run_full file ".pptx" None _ last Hex Hlast).
  unfold fired. rewrite Hshort. cbn [app map fst snd].
  do 3 eexists. split; [reflexivity|]. rewrite app_nil_r. split.
  - apply detail_not_structure.
  - unfold structure_strengths. cbn [existsb String.eqb Ascii.eqb Bool.eqb orb andb app].
    assert (Hs : existsb (fun p => Py.contains "slide" (Py.lower p))
                         (deck_blocks 1 slides) = true).
    { rewrite Heq. cbn [existsb]. rewrite slide_marker_detected. reflexivity. }
    rewrite Hs. apply in_or_app. right. left. reflexivity.
Qed.

Lemma deck_always_short_witness :
  exists strengths more_w more_a,
    run_swan_analysis one_slide ".pptx"
    = Ok (strengths, W_short :: more_w, A_short :: more_a, fixed_next_steps)
    /\ ~ In S_detail strengths
    /\ In S_slides strengths.
Proof.
  apply (deck_always_short one_slide
           [{| shapes := [{| shape_text := Some " Title " |}; {| shape_text := None |}] |}]).
  - reflexivity.
  - apply Nat.pow_gt_1; [repeat constructor|discriminate].
  - discriminate.
Defined.
